(** * echo-proxy: the proxy service of package [service]

    A shallow embedding of the Go sources of the local reverse proxy
    (the [Service] type with [StartServer], [ShutdownServer],
    [loadTLSConfig], [makeTargetMap], the [Director] and [ErrorHandler]
    closures, and [hostsFile.WriteHostsFile]), together with the parts of
    the Go standard library these functions call.

    Conventions.
    - A Go [string] is a sequence of bytes: it is a [string] of 8-bit
      [ascii] here.
    - A Go [error] is represented by its message ([err.Error()]); a
      result [(v, err)] is an [option]: [None] stands for [err != nil].
    - A [map[string]T] is a [gmap string T].
    - A pointer to a struct that the code never compares with [nil] is the
      struct itself ([*HostConfig], [*url.URL]); a pointer the code does
      compare with [nil] is an [option] ([s.httpServer], [s.tlsServer]).
    - The goroutines of [StartServer] are threads of an interleaving
      semantics: every statement is one atomic step of its thread and the
      answers of the operating system (bind results, the end of a serve
      loop) are supplied with the step. *)

From Stdlib Require Import ZArith Lia Bool Ascii String.
From stdpp Require Import base option list gmap strings pretty.

Open Scope string_scope.

(* ================================================================== *)
(** * Bytes *)

Definition byteVal (c : ascii) : N := N_of_ascii c.

(** [lo <= c && c <= hi] on bytes. *)
Definition inRange (lo hi c : ascii) : bool :=
  (byteVal lo <=? byteVal c)%N && (byteVal c <=? byteVal hi)%N.

Definition isLetter (c : ascii) : bool := inRange "a" "z" c || inRange "A" "Z" c.
Definition isDigit (c : ascii) : bool := inRange "0" "9" c.

(** Membership of a byte in the bytes of a string (a [switch] over
    character constants). *)
Fixpoint oneOf (cases : string) (c : ascii) : bool :=
  match cases with
  | EmptyString => false
  | String d rest => Ascii.eqb c d || oneOf rest c
  end.

(** The double quote, byte 34. *)
Definition dquote : ascii := ascii_of_N 34.

(** [s[n:]] and [s[:n]]. *)
Definition sliceFrom (n : nat) (s : string) : string :=
  String.substring n (String.length s - n) s.
Definition sliceTo (n : nat) (s : string) : string := String.substring 0 n s.

(* ================================================================== *)
(** * Package [unicode]: the case tables *)

(** [strings.ToLower] leaves the ASCII range by calling
    [strings.Map(unicode.ToLower, s)], which decodes UTF-8, consults the
    case tables of package [unicode] and encodes again.  The tables are
    data of the Go runtime; the development is parametric in that map. *)
Class UnicodeTables := { mapLower : string -> string }.

(* ================================================================== *)
(** * Package [strings] *)

Module strings.

Definition HasPrefix (s prefix : string) : bool := String.prefix prefix s.

Definition HasSuffix (s suffix : string) : bool :=
  (String.length suffix <=? String.length s)%nat
  && String.eqb (sliceFrom (String.length s - String.length suffix) s) suffix.

(** [Index]: [None] is Go's [-1]. *)
Definition Index (s substr : string) : option nat := String.index 0 substr s.

Definition Contains (s substr : string) : bool :=
  match Index s substr with Some _ => true | None => false end.

Fixpoint lastIndexFrom (substr s : string) (pos : nat) (found : option nat) : option nat :=
  let found' := if String.prefix substr s then Some pos else found in
  match s with
  | EmptyString => found'
  | String _ rest => lastIndexFrom substr rest (S pos) found'
  end.

Definition LastIndex (s substr : string) : option nat := lastIndexFrom substr s 0 None.

(** [Cut(s, sep)]: the text before and after the first [sep], and whether
    [sep] occurs. *)
Definition Cut (s sep : string) : string * string * bool :=
  match Index s sep with
  | Some i => (sliceTo i s, sliceFrom (i + String.length sep) s, true)
  | None => (s, "", false)
  end.

(** [Count(s, substr)] for a non-empty [substr]: the occurrences that do
    not overlap. *)
Fixpoint countFrom (substr s : string) (skip : nat) : nat :=
  match s with
  | EmptyString => 0
  | String _ rest =>
      match skip with
      | S k => countFrom substr rest k
      | O => if String.prefix substr s
             then S (countFrom substr rest (String.length substr - 1))
             else countFrom substr rest 0
      end
  end.

Definition Count (s substr : string) : nat := countFrom substr s 0.

(** The first loop of [ToLower]: is every byte below [utf8.RuneSelf]? *)
Fixpoint isASCII (s : string) : bool :=
  match s with
  | EmptyString => true
  | String c rest => (byteVal c <? 128)%N && isASCII rest
  end.

Definition lowerByte (c : ascii) : ascii :=
  if inRange "A" "Z" c then ascii_of_N (byteVal c + 32) else c.

Fixpoint lowerASCII (s : string) : string :=
  match s with
  | EmptyString => EmptyString
  | String c rest => String (lowerByte c) (lowerASCII rest)
  end.

(** [ToLower]: byte-wise on ASCII-only strings, through the case tables
    otherwise. *)
Definition ToLower `{UnicodeTables} (s : string) : string :=
  if isASCII s then lowerASCII s else mapLower s.

End strings.

(* ================================================================== *)
(** * Package [net/url] *)

Module url.

Record Userinfo := {
  username : string;
  password : string;
  passwordSet : bool
}.

Record URL := {
  Scheme : string;
  Opaque : string;
  User : option Userinfo;
  Host : string;
  Path : string;
  RawPath : string;
  OmitHost : bool;
  ForceQuery : bool;
  RawQuery : string;
  Fragment : string;
  RawFragment : string
}.

Definition emptyURL : URL :=
  {| Scheme := ""; Opaque := ""; User := None; Host := ""; Path := "";
     RawPath := ""; OmitHost := false; ForceQuery := false; RawQuery := "";
     Fragment := ""; RawFragment := "" |}.

(** [u.IsAbs()]. *)
Definition IsAbs (u : URL) : bool := negb (String.eqb (Scheme u) "").

Inductive encoding :=
| encodePath | encodePathSegment | encodeHost | encodeZone
| encodeUserPassword | encodeQueryComponent | encodeFragment.

Definition isHostMode (mode : encoding) : bool :=
  match mode with encodeHost | encodeZone => true | _ => false end.

Definition shouldEscape (c : ascii) (mode : encoding) : bool :=
  if isLetter c || isDigit c then false
  else if isHostMode mode
          && (oneOf "!$&'()*+,;=:[]<>" c || Ascii.eqb c dquote) then false
  else if oneOf "-_.~" c then false
  else if oneOf "$&+,/:;=?@" c
          && match mode with
             | encodePath | encodePathSegment | encodeUserPassword
             | encodeQueryComponent | encodeFragment => true
             | _ => false
             end
       then match mode with
            | encodePath => Ascii.eqb c "?"
            | encodePathSegment => oneOf "/;,?" c
            | encodeUserPassword => oneOf "@/?:" c
            | encodeQueryComponent => true
            | _ => false
            end
  else if match mode with encodeFragment => oneOf "!()*" c | _ => false end
       then false
  else true.

Definition ishex (c : ascii) : bool :=
  isDigit c || inRange "a" "f" c || inRange "A" "F" c.

Definition unhex (c : ascii) : N :=
  if isDigit c then byteVal c - byteVal "0"
  else if inRange "a" "f" c then byteVal c - byteVal "a" + 10
  else if inRange "A" "F" c then byteVal c - byteVal "A" + 10
  else 0.

(** The first loop of [unescape]: are the escapes well formed and allowed
    in this part of the URL? *)
Fixpoint unescapeOk (mode : encoding) (s : string) : bool :=
  match s with
  | EmptyString => true
  | String c rest =>
      if Ascii.eqb c "%" then
        match rest with
        | String a (String b rest') =>
            ishex a && ishex b
            && negb (match mode with encodeHost => true | _ => false end
                     && (unhex a <? 8)%N
                     && negb (Ascii.eqb a "2" && Ascii.eqb b "5"))
            && negb (match mode with encodeZone => true | _ => false end
                     && negb (Ascii.eqb a "2" && Ascii.eqb b "5")
                     && negb (unhex a * 16 + unhex b =? 32)%N
                     && shouldEscape (ascii_of_N (unhex a * 16 + unhex b)) encodeHost)
            && unescapeOk mode rest'
        | _ => false
        end
      else if Ascii.eqb c "+" then unescapeOk mode rest
      else
        negb (isHostMode mode && (byteVal c <? 128)%N && shouldEscape c encodeHost)
        && unescapeOk mode rest
  end.

(** The second loop of [unescape]. *)
Fixpoint unescapeBytes (mode : encoding) (s : string) : string :=
  match s with
  | EmptyString => EmptyString
  | String c rest =>
      if Ascii.eqb c "%" then
        match rest with
        | String a (String b rest') =>
            String (ascii_of_N (unhex a * 16 + unhex b)) (unescapeBytes mode rest')
        | _ => String c (unescapeBytes mode rest)
        end
      else if Ascii.eqb c "+" then
        String (match mode with encodeQueryComponent => " "%char | _ => "+"%char end)
               (unescapeBytes mode rest)
      else String c (unescapeBytes mode rest)
  end.

Definition unescape (s : string) (mode : encoding) : option string :=
  if unescapeOk mode s then Some (unescapeBytes mode s) else None.

Definition upperhex (n : N) : ascii :=
  if (n <? 10)%N then ascii_of_N (byteVal "0" + n) else ascii_of_N (byteVal "A" + (n - 10)).

Fixpoint escape (s : string) (mode : encoding) : string :=
  match s with
  | EmptyString => EmptyString
  | String c rest =>
      if Ascii.eqb c " " && match mode with encodeQueryComponent => true | _ => false end
      then String "+" (escape rest mode)
      else if shouldEscape c mode
      then String "%" (String (upperhex (byteVal c / 16))
                         (String (upperhex (byteVal c mod 16)) (escape rest mode)))
      else String c (escape rest mode)
  end.

Fixpoint stringContainsCTLByte (s : string) : bool :=
  match s with
  | EmptyString => false
  | String c rest =>
      (byteVal c <? 32)%N || (byteVal c =? 127)%N || stringContainsCTLByte rest
  end.

(** [getScheme]: [Some (scheme, rest)], or [None] for "missing protocol
    scheme".  [whole] is the raw URL, [i > 0] tells whether a byte was
    consumed and [pre] holds the bytes consumed so far, last first. *)
Fixpoint getSchemeFrom (whole : string) (pre : list ascii) (s : string)
  : option (string * string) :=
  match s with
  | EmptyString => Some ("", whole)
  | String c rest =>
      if isLetter c then getSchemeFrom whole (c :: pre) rest
      else if isDigit c || oneOf "+-." c then
        match pre with
        | [] => Some ("", whole)
        | _ => getSchemeFrom whole (c :: pre) rest
        end
      else if Ascii.eqb c ":" then
        match pre with
        | [] => None
        | _ => Some (string_of_list_ascii (rev pre), rest)
        end
      else Some ("", whole)
  end.

Definition getScheme (rawURL : string) : option (string * string) :=
  getSchemeFrom rawURL [] rawURL.

Fixpoint allDigits (s : string) : bool :=
  match s with
  | EmptyString => true
  | String c rest => isDigit c && allDigits rest
  end.

Definition validOptionalPort (port : string) : bool :=
  match port with
  | EmptyString => true
  | String c rest => Ascii.eqb c ":" && allDigits rest
  end.

Fixpoint validUserinfo (s : string) : bool :=
  match s with
  | EmptyString => true
  | String c rest =>
      (isLetter c || isDigit c || oneOf "-._:~!$&'()*+,;=%@" c) && validUserinfo rest
  end.

Definition parseHost (host : string) : option string :=
  if strings.HasPrefix host "[" then
    match strings.LastIndex host "]" with
    | None => None
    | Some i =>
        if negb (validOptionalPort (sliceFrom (i + 1) host)) then None
        else
          match strings.Index (sliceTo i host) "%25" with
          | Some zone =>
              host1 ← unescape (sliceTo zone host) encodeHost;
              host2 ← unescape (String.substring zone (i - zone) host) encodeZone;
              host3 ← unescape (sliceFrom i host) encodeHost;
              Some (host1 +:+ host2 +:+ host3)
          | None => unescape host encodeHost
          end
    end
  else
    match strings.LastIndex host ":" with
    | Some i =>
        if negb (validOptionalPort (sliceFrom i host)) then None
        else unescape host encodeHost
    | None => unescape host encodeHost
    end.

Definition parseAuthority (authority : string) : option (option Userinfo * string) :=
  match strings.LastIndex authority "@" with
  | None => host ← parseHost authority; Some (None, host)
  | Some i =>
      host ← parseHost (sliceFrom (i + 1) authority);
      let userinfo := sliceTo i authority in
      if negb (validUserinfo userinfo) then None
      else if negb (strings.Contains userinfo ":") then
        name ← unescape userinfo encodeUserPassword;
        Some (Some {| username := name; password := ""; passwordSet := false |}, host)
      else
        let '(name, pass, _) := strings.Cut userinfo ":" in
        name' ← unescape name encodeUserPassword;
        pass' ← unescape pass encodeUserPassword;
        Some (Some {| username := name'; password := pass'; passwordSet := true |}, host)
  end.

Definition withScheme (v : string) (u : URL) : URL :=
  {| Scheme := v; Opaque := Opaque u; User := User u; Host := Host u;
     Path := Path u; RawPath := RawPath u; OmitHost := OmitHost u;
     ForceQuery := ForceQuery u; RawQuery := RawQuery u;
     Fragment := Fragment u; RawFragment := RawFragment u |}.

Definition withHost (v : string) (u : URL) : URL :=
  {| Scheme := Scheme u; Opaque := Opaque u; User := User u; Host := v;
     Path := Path u; RawPath := RawPath u; OmitHost := OmitHost u;
     ForceQuery := ForceQuery u; RawQuery := RawQuery u;
     Fragment := Fragment u; RawFragment := RawFragment u |}.

(** [u.setPath(p)]. *)
Definition setPath (u : URL) (p : string) : option URL :=
  path ← unescape p encodePath;
  Some {| Scheme := Scheme u; Opaque := Opaque u; User := User u; Host := Host u;
          Path := path;
          RawPath := if String.eqb p (escape path encodePath) then "" else p;
          OmitHost := OmitHost u; ForceQuery := ForceQuery u;
          RawQuery := RawQuery u; Fragment := Fragment u;
          RawFragment := RawFragment u |}.

(** [u.setFragment(f)]. *)
Definition setFragment (u : URL) (f : string) : option URL :=
  frag ← unescape f encodeFragment;
  Some {| Scheme := Scheme u; Opaque := Opaque u; User := User u; Host := Host u;
          Path := Path u; RawPath := RawPath u; OmitHost := OmitHost u;
          ForceQuery := ForceQuery u; RawQuery := RawQuery u;
          Fragment := frag;
          RawFragment := if String.eqb f (escape frag encodeFragment) then "" else f |}.

Section Parse.
Context `{UnicodeTables}.

(** [parse(rawURL, viaRequest)]. *)
Definition parse (rawURL : string) (viaRequest : bool) : option URL :=
  if stringContainsCTLByte rawURL then None
  else if String.eqb rawURL "" && viaRequest then None
  else if String.eqb rawURL "*" then
    Some {| Scheme := ""; Opaque := ""; User := None; Host := ""; Path := "*";
            RawPath := ""; OmitHost := false; ForceQuery := false;
            RawQuery := ""; Fragment := ""; RawFragment := "" |}
  else
    '(scheme0, rest0) ← getScheme rawURL;
    let scheme := strings.ToLower scheme0 in
    let '(rest, force, query) :=
      if strings.HasSuffix rest0 "?" && (strings.Count rest0 "?" =? 1)%nat
      then (sliceTo (String.length rest0 - 1) rest0, true, "")
      else let '(before, after, _) := strings.Cut rest0 "?" in (before, false, after) in
    let u0 :=
      {| Scheme := scheme; Opaque := ""; User := None; Host := ""; Path := "";
         RawPath := ""; OmitHost := false; ForceQuery := force;
         RawQuery := query; Fragment := ""; RawFragment := "" |} in
    let rooted := strings.HasPrefix rest "/" in
    if negb rooted && negb (String.eqb scheme "") then
      (* a rootless path after a scheme is opaque *)
      Some {| Scheme := scheme; Opaque := rest; User := None; Host := ""; Path := "";
              RawPath := ""; OmitHost := false; ForceQuery := force;
              RawQuery := query; Fragment := ""; RawFragment := "" |}
    else if negb rooted && viaRequest then None
    else if negb rooted && strings.Contains (strings.Cut rest "/").1.1 ":" then None
    else if (negb (String.eqb scheme "")
             || negb viaRequest && negb (strings.HasPrefix rest "///"))
            && strings.HasPrefix rest "//" then
      let authority0 := sliceFrom 2 rest in
      let '(authority, rest') :=
        match strings.Index authority0 "/" with
        | Some i => (sliceTo i authority0, sliceFrom i authority0)
        | None => (authority0, "")
        end in
      '(user, host) ← parseAuthority authority;
      setPath {| Scheme := scheme; Opaque := ""; User := user; Host := host;
                 Path := ""; RawPath := ""; OmitHost := false; ForceQuery := force;
                 RawQuery := query; Fragment := ""; RawFragment := "" |} rest'
    else if negb (String.eqb scheme "") && rooted then
      setPath {| Scheme := scheme; Opaque := ""; User := None; Host := "";
                 Path := ""; RawPath := ""; OmitHost := true; ForceQuery := force;
                 RawQuery := query; Fragment := ""; RawFragment := "" |} rest
    else setPath u0 rest.

(** [url.Parse(rawURL)]. *)
Definition Parse (rawURL : string) : option URL :=
  let '(u, frag, _) := strings.Cut rawURL "#" in
  url ← parse u false;
  if String.eqb frag "" then Some url else setFragment url frag.

End Parse.

End url.

(* ================================================================== *)
(** * Errors, [fmt] and [bytes] *)

(** A Go [error] value: the sentinel [http.ErrServerClosed], or any other
    error with its message. *)
Inductive error :=
| ErrServerClosed
| errorString (msg : string).

(** [err.Error()]. *)
Definition Error (e : error) : string :=
  match e with
  | ErrServerClosed => "http: Server closed"
  | errorString msg => msg
  end.

(** [errors.Is(err, http.ErrServerClosed)]. *)
Definition isErrServerClosed (e : error) : bool :=
  match e with ErrServerClosed => true | errorString _ => false end.

Definition newline : string := String (ascii_of_N 10) EmptyString.

Module fmt.

(** [fmt.Sprintf] for formats whose only verb is [%s] and whose operands
    are strings, as many as there are verbs (the two formats of this
    program): each verb is replaced by its operand. *)
Fixpoint Sprintf (format : string) (args : list string) : string :=
  match format with
  | EmptyString => EmptyString
  | String c rest =>
      match rest with
      | String d rest' =>
          if Ascii.eqb c "%" && Ascii.eqb d "s" then
            match args with
            | a :: args' => a +:+ Sprintf rest' args'
            | [] => "%!s(MISSING)" +:+ Sprintf rest' []
            end
          else String c (Sprintf rest args)
      | EmptyString => String c EmptyString
      end
  end.

End fmt.

Module bytes.

(** A [bytes.Buffer] is its unread content. *)
Definition Buffer := string.

Definition NewBufferString (s : string) : Buffer := s.

(** [b.WriteString(s)] appends [s]; its error result is always [nil]. *)
Definition WriteString (b : Buffer) (s : string) : Buffer * nat * option error :=
  (b +:+ s, String.length s, None).

End bytes.

(* ================================================================== *)
(** * Package [crypto/tls] *)

Module tls.

(** [tls.Certificate]: the chain and the private key that
    [LoadX509KeyPair] read from the two files. *)
Record Certificate := {
  CertificateChain : list string;
  PrivateKey : string
}.

Record Config := {
  MinVersion : Z;
  CurvePreferences : list Z;
  CipherSuites : list Z;
  Certificates : list Certificate
}.

Definition VersionTLS12 : Z := 0x0303.
Definition CurveP256 : Z := 23.
Definition CurveP384 : Z := 24.
Definition CurveP521 : Z := 25.
Definition TLS_ECDHE_ECDSA_WITH_AES_128_GCM_SHA256 : Z := 0xc02b.
Definition TLS_ECDHE_RSA_WITH_AES_128_GCM_SHA256 : Z := 0xc02f.
Definition TLS_ECDHE_ECDSA_WITH_AES_256_GCM_SHA384 : Z := 0xc02c.
Definition TLS_ECDHE_RSA_WITH_AES_256_GCM_SHA384 : Z := 0xc030.
Definition TLS_ECDHE_ECDSA_WITH_CHACHA20_POLY1305 : Z := 0xcca9.
Definition TLS_ECDHE_RSA_WITH_CHACHA20_POLY1305 : Z := 0xcca8.

Definition withCertificates (certs : list Certificate) (c : Config) : Config :=
  {| MinVersion := MinVersion c; CurvePreferences := CurvePreferences c;
     CipherSuites := CipherSuites c; Certificates := certs |}.

End tls.

(* ================================================================== *)
(** * Package [strconv] *)

Module strconv.

Fixpoint digits (s : string) (acc : Z) : option Z :=
  match s with
  | EmptyString => Some acc
  | String c rest =>
      if isDigit c then digits rest (acc * 10 + Z.of_N (byteVal c - 48))%Z
      else None
  end.

(** [ParseInt(s, 10, 64)]: an optional sign and decimal digits, within
    the range of [int64]; [None] is an error. *)
Definition ParseInt (s : string) : option Z :=
  match s with
  | EmptyString => None
  | String c rest =>
      let neg := Ascii.eqb c "-" in
      let ds := if Ascii.eqb c "+" || neg then rest else s in
      match ds with
      | EmptyString => None
      | _ =>
          match digits ds 0 with
          | Some v =>
              let v := if neg then (- v)%Z else v in
              if (- 2 ^ 63 <=? v)%Z && (v <? 2 ^ 63)%Z then Some v else None
          | None => None
          end
      end
  end.

End strconv.

(* ================================================================== *)
(** * Package [net/http] *)

(** The tail of [net/http]'s content sniffing table ([sniffSignatures]
    after its HTML entries, and the fallback type): data of the standard
    library, taken as a map from the sniffed bytes to a content type. *)
Class SniffTable := { sniffRest : string -> string }.

Module http.

Record Request := {
  Method : string;
  URL : url.URL;
  Proto : string;
  Header : gmap string (list string);
  Host : string;
  RemoteAddr : string;
  RequestURI : string
}.

Definition withURL (u : url.URL) (r : Request) : Request :=
  {| Method := Method r; URL := u; Proto := Proto r; Header := Header r;
     Host := Host r; RemoteAddr := RemoteAddr r; RequestURI := RequestURI r |}.

(** ** Content sniffing ([DetectContentType]) *)

Definition isWS (c : ascii) : bool :=
  oneOf (String (ascii_of_N 9) (String (ascii_of_N 10) (String (ascii_of_N 12)
          (String (ascii_of_N 13) " ")))) c.

Definition isTT (c : ascii) : bool := oneOf " >" c.

Fixpoint skipWS (data : string) : string :=
  match data with
  | EmptyString => EmptyString
  | String c rest => if isWS c then skipWS rest else data
  end.

(** [htmlSig.match] on the data after its leading white space: the
    signature matches case-insensitively where it has a capital letter,
    and a tag-terminating byte must follow. *)
Fixpoint htmlSigMatch (h data : string) : bool :=
  match h, data with
  | EmptyString, String c _ => isTT c
  | EmptyString, EmptyString => false
  | String b h', String db data' =>
      let db' := if inRange "A" "Z" b
                 then ascii_of_N (N.land (byteVal db) 223) else db in
      Ascii.eqb b db' && htmlSigMatch h' data'
  | String _ _, EmptyString => false
  end.

(** The HTML entries that open [sniffSignatures]. *)
Definition htmlSigs : list string :=
  [ "<!DOCTYPE HTML"; "<HTML"; "<HEAD"; "<SCRIPT"; "<IFRAME"; "<H1"; "<DIV";
    "<FONT"; "<TABLE"; "<A"; "<STYLE"; "<TITLE"; "<B"; "<BODY"; "<BR"; "<P";
    "<!--" ].

Definition sniffLen : nat := 512.

Definition DetectContentType `{SniffTable} (data : string) : string :=
  let data := sliceTo sniffLen data in
  if existsb (fun h => htmlSigMatch h (skipWS data)) htmlSigs
  then "text/html; charset=utf-8"
  else sniffRest data.

(** ** The server's [ResponseWriter]

    A writer answers one request: [reqMethod] is the method of that
    request.  [header] is the map the handler edits ([w.Header()]);
    [WriteHeader] fixes the status, records a valid [Content-Length] the
    handler has declared ([contentLength], [None] for none) and takes a
    snapshot of the header map; the header block goes on the wire with
    the first body bytes, and it is then that a missing [Content-Type] is
    filled in by sniffing those bytes (not when a [Content-Encoding] or
    [Transfer-Encoding] is present).  Of the header block on the wire,
    [wire] keeps the handler's snapshot and the sniffed [Content-Type].
    [written] counts the bytes the handler has asked to write, and [body]
    is the body that goes on the wire: none for a [HEAD] request. *)
Record ResponseWriter := {
  reqMethod : string;
  header : gmap string (list string);
  wroteHeader : bool;
  status : Z;
  contentLength : option Z;
  written : Z;
  snapshot : gmap string (list string);
  wire : option (gmap string (list string));
  body : string
}.

(** The writer a handler receives for the request [r]. *)
Definition newResponse (r : Request) : ResponseWriter :=
  {| reqMethod := Method r; header := ∅; wroteHeader := false; status := 0;
     contentLength := None; written := 0; snapshot := ∅; wire := None; body := "" |}.

Definition ErrBodyNotAllowed : error :=
  errorString "http: request method or response status code does not allow body".

Definition ErrContentLength : error :=
  errorString "http: wrote more than the declared Content-Length".

(** [Header.get(key)]: the first value, or the empty string. *)
Definition headerGet (h : gmap string (list string)) (key : string) : string :=
  match h !! key with
  | Some (v :: _) => v
  | _ => ""
  end.

(** [bodyAllowedForStatus]. *)
Definition bodyAllowedForStatus (status : Z) : bool :=
  if (100 <=? status)%Z && (status <=? 199)%Z then false
  else if (status =? 204)%Z then false
  else if (status =? 304)%Z then false
  else true.

(** [WriteHeader(code)] with a final status code (the program calls it
    with 502, [Write] with 200).  A [Content-Length] that is not a
    non-negative number is dropped from the handler's map. *)
Definition WriteHeader (code : Z) (w : ResponseWriter) : ResponseWriter :=
  if wroteHeader w then w
  else
    let cl := headerGet (header w) "Content-Length" in
    let declared :=
      match strconv.ParseInt cl with
      | Some v => if (0 <=? v)%Z then Some v else None
      | None => None
      end in
    {| reqMethod := reqMethod w;
       header := if String.eqb cl "" then header w
                 else match declared with
                      | Some _ => header w
                      | None => delete "Content-Length" (header w)
                      end;
       wroteHeader := true; status := code;
       contentLength := if String.eqb cl "" then contentLength w
                        else match declared with
                             | Some v => Some v
                             | None => contentLength w
                             end;
       written := written w;
       snapshot := header w; wire := wire w; body := body w |}.

Definition nonBlank (vs : option (list string)) : bool :=
  match vs with
  | Some (v :: _) => negb (String.eqb v "")
  | _ => false
  end.

(** The bytes reach the connection ([chunkWriter.Write]): the header
    block is put on the wire if it has not been, and the bytes follow,
    unless the request is a [HEAD] request: then they are dropped.  The
    buffer between the handler and the connection is left out: what one
    [Write] accepts reaches the connection in one piece. *)
Definition deliver `{SniffTable} (data : string) (w : ResponseWriter) : ResponseWriter :=
  let wire' :=
    match wire w with
    | Some h => Some h
    | None =>
        let h := snapshot w in
        match h !! "Content-Type" with
        | Some _ => Some h
        | None =>
            if nonBlank (h !! "Content-Encoding")
               || nonBlank (h !! "Transfer-Encoding")
            then Some h
            else Some (<["Content-Type" := [DetectContentType data]]> h)
        end
    end in
  {| reqMethod := reqMethod w; header := header w; wroteHeader := wroteHeader w;
     status := status w; contentLength := contentLength w; written := written w;
     snapshot := snapshot w; wire := wire';
     body := if String.eqb (reqMethod w) "HEAD" then body w else body w +:+ data |}.

Definition withWritten (n : Z) (w : ResponseWriter) : ResponseWriter :=
  {| reqMethod := reqMethod w; header := header w; wroteHeader := wroteHeader w;
     status := status w; contentLength := contentLength w; written := n;
     snapshot := snapshot w; wire := wire w; body := body w |}.

(** [Write(data)]: the writer it leaves, the number of bytes it reports
    as written and its error.  Nothing is written where the status allows
    no body, nor beyond a declared [Content-Length]. *)
Definition Write `{SniffTable} (data : string) (w : ResponseWriter)
  : ResponseWriter * (nat * option error) :=
  let w := if wroteHeader w then w else WriteHeader 200 w in
  let lenData := String.length data in
  if (lenData =? 0)%nat then (w, (0%nat, None))
  else if negb (bodyAllowedForStatus (status w)) then (w, (0%nat, Some ErrBodyNotAllowed))
  else
    let w := withWritten (written w + Z.of_nat lenData)%Z w in
    match contentLength w with
    | Some declared =>
        if (declared <? written w)%Z then (w, (0%nat, Some ErrContentLength))
        else (deliver data w, (lenData, None))
    | None => (deliver data w, (lenData, None))
    end.

(** ** [http.Server]

    Besides the fields the program sets, a server carries the state that
    [Serve] and [Shutdown] share: [inShutdown], and whether a listener is
    being tracked ([tracking]: [Serve] is running on it). *)
Record Server := {
  Addr : string;
  TLSConfig : option tls.Config;
  ReadTimeout : Z;
  WriteTimeout : Z;
  MaxHeaderBytes : Z;
  inShutdown : bool;
  tracking : bool
}.

(** [srv.Shutdown(context.Background())]: marks the server as shutting
    down, closes the tracked listener and forgets it, and waits for the
    connections to become idle.  The context is never done, so the only
    error it can return is the one of closing a tracked listener:
    [closeAnswer] is what closing would answer.  The call is taken to
    return (a connection that never becomes idle would keep it waiting). *)
Definition Shutdown (closeAnswer : option error) (srv : Server) : option error * Server :=
  (if tracking srv then closeAnswer else None,
   {| Addr := Addr srv; TLSConfig := TLSConfig srv; ReadTimeout := ReadTimeout srv;
      WriteTimeout := WriteTimeout srv; MaxHeaderBytes := MaxHeaderBytes srv;
      inShutdown := true; tracking := false |}).

Definition withTracking (b : bool) (srv : Server) : Server :=
  {| Addr := Addr srv; TLSConfig := TLSConfig srv; ReadTimeout := ReadTimeout srv;
     WriteTimeout := WriteTimeout srv; MaxHeaderBytes := MaxHeaderBytes srv;
     inShutdown := inShutdown srv; tracking := b |}.

End http.

(** [time.Second], in nanoseconds. *)
Definition Second : Z := 1000000000.

(** [cast.ToString] of an [int]: its decimal notation. *)
Definition ToString (n : Z) : string := pretty n.

(* ================================================================== *)
(** * Package [service]: configuration and state *)

(** Modelled from the spec: the [HostConfig] type is declared outside the
    sources at hand; these are the fields of the spec's HostEntry, under
    the names the code reads them by. *)
Record HostConfig := {
  Name : string;
  DefaultTarget : string;
  EnableTLS : bool;
  TLSCertFile : string;
  TLSKeyFile : string
}.

(** Modelled from the spec: the [Setting] part of the configuration, a
    pair of ports. *)
Record SettingConfig := {
  HttpPort : Z;
  HttpsPort : Z
}.

(** The package variable [config], read-only while the service runs. *)
Record Config := {
  Hosts : list HostConfig;
  Setting : SettingConfig
}.

(** [httputil.ReverseProxy] with its [Director] and [ErrorHandler]: the
    two closures are the functions [Director] and [ErrorHandler] below;
    they read the [Service] when a request arrives. *)
Variant ReverseProxy := reverseProxy.

Record Service := {
  httpServerRunning : bool;
  tlsServerRunning : bool;
  targetMap : gmap string url.URL;
  httpServer : option http.Server;
  tlsServer : option http.Server;
  proxy : option ReverseProxy
}.

(** The zero value [Service{}]. *)
Definition newService : Service :=
  {| httpServerRunning := false; tlsServerRunning := false; targetMap := ∅;
     httpServer := None; tlsServer := None; proxy := None |}.

Definition set_httpServerRunning (b : bool) (s : Service) : Service :=
  {| httpServerRunning := b; tlsServerRunning := tlsServerRunning s;
     targetMap := targetMap s; httpServer := httpServer s;
     tlsServer := tlsServer s; proxy := proxy s |}.

Definition set_tlsServerRunning (b : bool) (s : Service) : Service :=
  {| httpServerRunning := httpServerRunning s; tlsServerRunning := b;
     targetMap := targetMap s; httpServer := httpServer s;
     tlsServer := tlsServer s; proxy := proxy s |}.

Definition set_targetMap (m : gmap string url.URL) (s : Service) : Service :=
  {| httpServerRunning := httpServerRunning s; tlsServerRunning := tlsServerRunning s;
     targetMap := m; httpServer := httpServer s;
     tlsServer := tlsServer s; proxy := proxy s |}.

Definition set_httpServer (v : option http.Server) (s : Service) : Service :=
  {| httpServerRunning := httpServerRunning s; tlsServerRunning := tlsServerRunning s;
     targetMap := targetMap s; httpServer := v;
     tlsServer := tlsServer s; proxy := proxy s |}.

Definition set_tlsServer (v : option http.Server) (s : Service) : Service :=
  {| httpServerRunning := httpServerRunning s; tlsServerRunning := tlsServerRunning s;
     targetMap := targetMap s; httpServer := httpServer s;
     tlsServer := v; proxy := proxy s |}.

Definition set_proxy (v : option ReverseProxy) (s : Service) : Service :=
  {| httpServerRunning := httpServerRunning s; tlsServerRunning := tlsServerRunning s;
     targetMap := targetMap s; httpServer := httpServer s;
     tlsServer := tlsServer s; proxy := v |}.

(* ================================================================== *)
(** * The world: goroutines, the barrier and what can be observed *)

Inductive Proto := HTTP | TLS.

(** The goroutines: the one that calls the methods of the service, the two
    started by [StartServer], and the detached ones that edit the hosts
    file. *)
Inductive Tid := GoMain | GoHttp | GoTls | GoTask.

(** The two detached closures. *)
Inductive Task := addHostsFileRecord | removeHostsFileRecord.

(** What a goroutine does that others can see. *)
Inductive Event :=
| EvError (msg : string)             (* emitErrorToFrontend(msg) *)
| EvWarning (msg : string)           (* emitWarningToFrontend(msg) *)
| EvListen (addr : string) (ok : bool) (* net.Listen / tls.Listen and its result *)
| EvDone                             (* wg.Done() *)
| EvServe                            (* Serve(listener) starts *)
| EvShutdown (p : Proto)             (* Shutdown of a server *)
| EvGo (t : Task)                    (* go func() { ... }() *)
| EvHostsFile (t : Task).            (* the detached closure edits the hosts file *)

(** Where [StartServer] stands. *)
Inductive MainPc :=
| M_go_hosts | M_makeTargetMap | M_proxy | M_add | M_go_http | M_go_tls
| M_wait | M_read_http | M_read_tls
| M_returned (v : bool).

(** Where [startHttpServer] stands. *)
Inductive HttpPc :=
| H_none                         (* not started *)
| H_new | H_listen
| H_fail_emit (e : error) | H_fail_done | H_failed
| H_set_running | H_ok_done | H_serve
| H_serving
| H_served_emit (e : error) | H_clear | H_returned.

(** Where [startTlsServer] stands; [tlsConfig] is its local variable. *)
Inductive TlsPc :=
| T_none
| T_load | T_check (tlsConfig : tls.Config)
| T_skip_clear | T_skip_done | T_skipped
| T_new (tlsConfig : tls.Config) | T_listen (tlsConfig : tls.Config)
| T_fail_emit (e : error) | T_fail_done | T_failed
| T_set_running | T_ok_done | T_serve
| T_serving
| T_served_emit (e : error) | T_clear | T_returned.

Record World := {
  svc : Service;                 (* the receiver [s] *)
  wg : Z;                        (* the counter of the WaitGroup *)
  trace : list (Tid * Event);    (* oldest first *)
  detached : list Task;          (* started, not yet run *)
  pcMain : MainPc;
  pcHttp : HttpPc;
  pcTls : TlsPc
}.

Definition set_svc (v : Service) (w : World) : World :=
  {| svc := v; wg := wg w; trace := trace w; detached := detached w;
     pcMain := pcMain w; pcHttp := pcHttp w; pcTls := pcTls w |}.

Definition set_wg (v : Z) (w : World) : World :=
  {| svc := svc w; wg := v; trace := trace w; detached := detached w;
     pcMain := pcMain w; pcHttp := pcHttp w; pcTls := pcTls w |}.

Definition set_trace (v : list (Tid * Event)) (w : World) : World :=
  {| svc := svc w; wg := wg w; trace := v; detached := detached w;
     pcMain := pcMain w; pcHttp := pcHttp w; pcTls := pcTls w |}.

Definition set_detached (v : list Task) (w : World) : World :=
  {| svc := svc w; wg := wg w; trace := trace w; detached := v;
     pcMain := pcMain w; pcHttp := pcHttp w; pcTls := pcTls w |}.

Definition set_pcMain (v : MainPc) (w : World) : World :=
  {| svc := svc w; wg := wg w; trace := trace w; detached := detached w;
     pcMain := v; pcHttp := pcHttp w; pcTls := pcTls w |}.

Definition set_pcHttp (v : HttpPc) (w : World) : World :=
  {| svc := svc w; wg := wg w; trace := trace w; detached := detached w;
     pcMain := pcMain w; pcHttp := v; pcTls := pcTls w |}.

Definition set_pcTls (v : TlsPc) (w : World) : World :=
  {| svc := svc w; wg := wg w; trace := trace w; detached := detached w;
     pcMain := pcMain w; pcHttp := pcHttp w; pcTls := v |}.

(** ** The monad of the sequential code: state passing over the world *)

Definition M (A : Type) : Type := World -> A * World.

#[global] Instance M_ret : MRet M := fun A a w => (a, w).
#[global] Instance M_bind : MBind M :=
  fun A B f m w => let '(a, w') := m w in f a w'.

(** The world after running [m]. *)
Definition exec {A} (m : M A) (w : World) : World := (m w).2.

Definition emit (t : Tid) (e : Event) : M unit :=
  fun w => (tt, set_trace (trace w ++ [(t, e)])%list w).

Definition getService : M Service := fun w => (svc w, w).

Definition modifyService (f : Service -> Service) : M unit :=
  fun w => (tt, set_svc (f (svc w)) w).

(** [go task()]. *)
Definition go (t : Tid) (task : Task) : M unit :=
  fun w => (tt, set_detached (detached w ++ [task])%list
                  (set_trace (trace w ++ [(t, EvGo task)])%list w)).

Fixpoint foldM {A B} (f : B -> A -> M B) (b : B) (l : list A) : M B :=
  match l with
  | [] => mret b
  | x :: l' => b' ← f b x; foldM f b' l'
  end.

(** Modelled from the spec: [emitErrorToFrontend] and
    [emitWarningToFrontend] are declared outside the sources at hand; the
    spec's notification collaborator receives [error(message)] and
    [warning(message)], fire and forget.  [t] is the goroutine that
    calls. *)
Definition emitErrorToFrontend (t : Tid) (msg : string) : M unit :=
  emit t (EvError msg).

Definition emitWarningToFrontend (t : Tid) (msg : string) : M unit :=
  emit t (EvWarning msg).

(** Modelled from the spec: [addHostsFileRecord] and
    [removeHostsFileRecord] are declared outside the sources at hand; the
    spec's hosts-file collaborator answers [Result<(), Error>].  The
    detached closure calls it and forwards a failure to the front end;
    [answer] is what the call returns. *)
Definition runTask (answer : option error) (task : Task) : M unit :=
  emit GoTask (EvHostsFile task);;
  match answer with
  | Some err => emitErrorToFrontend GoTask (Error err)
  | None => mret tt
  end.

(* ================================================================== *)
(** * Package [service]: the code *)

Section Service.

Context `{UnicodeTables} `{SniffTable}.

(** The package variable [config]. *)
Variable config : Config.

(** [tls.LoadX509KeyPair(certFile, keyFile)] reads and parses the two
    files: [None] is a failure.  The files are taken not to change while
    the certificates are loaded. *)
Variable LoadX509KeyPair : string -> string -> option tls.Certificate.

(** ** [makeTargetMap] *)

Definition makeTargetMap (s : Service) : Service :=
  set_targetMap
    (foldl (fun (m : gmap string url.URL) (h : HostConfig) =>
              if negb (String.eqb (DefaultTarget h) "") then
                match url.Parse (DefaultTarget h) with
                | Some u => <[Name h := u]> m
                | None => m
                end
              else m)
           ∅ (Hosts config))
    s.

(** ** The [Director] closure

    It returns what it logs and the request as it leaves it. *)
Definition Director (s : Service) (req : http.Request) : list string * http.Request :=
  let hostName := strings.ToLower (http.Host req) in
  let logged := ["Host name is " +:+ hostName] in
  match targetMap s !! hostName with
  | Some target =>
      (logged,
       http.withURL
         (url.withHost (url.Host target)
            (url.withScheme (url.Scheme target) (http.URL req)))
         req)
  | None => (logged, req)
  end.

(** ** The [ErrorHandler] closure *)

Definition badGatewayFormat : string :=
  "<div style=" +:+ String dquote "text-align: center" +:+ String dquote
  "><h2>Bad Gateway</h2><p>%s</p>".

Definition ErrorHandler (w : http.ResponseWriter) (r : http.Request) (err : error)
  : http.ResponseWriter :=
  let w := http.WriteHeader 502 w in
  let html := fmt.Sprintf badGatewayFormat [Error err] in
  let '(w, _) := http.Write html w in
  w.

(** ** [GetServerStatus] *)

Definition GetServerStatus (s : Service) : gmap string bool :=
  <["HTTP" := httpServerRunning s]> (<["TLS" := tlsServerRunning s]> ∅).

(** ** [loadTLSConfig]

    [t] is the goroutine that runs it. *)
Definition loadTLSConfig (t : Tid) : M tls.Config :=
  let tlsConfig :=
    {| tls.MinVersion := tls.VersionTLS12;
       tls.CurvePreferences := [tls.CurveP521; tls.CurveP384; tls.CurveP256];
       tls.CipherSuites :=
         [ tls.TLS_ECDHE_ECDSA_WITH_AES_128_GCM_SHA256;
           tls.TLS_ECDHE_RSA_WITH_AES_128_GCM_SHA256;
           tls.TLS_ECDHE_ECDSA_WITH_AES_256_GCM_SHA384;
           tls.TLS_ECDHE_RSA_WITH_AES_256_GCM_SHA384;
           tls.TLS_ECDHE_ECDSA_WITH_CHACHA20_POLY1305;
           tls.TLS_ECDHE_RSA_WITH_CHACHA20_POLY1305 ];
       tls.Certificates := [] |} in
  certs ← foldM
    (fun (certs : list tls.Certificate) (h : HostConfig) =>
       if EnableTLS h && negb (String.eqb (TLSCertFile h) "")
          && negb (String.eqb (TLSKeyFile h) "") then
         match LoadX509KeyPair (TLSCertFile h) (TLSKeyFile h) with
         | None =>
             emitWarningToFrontend t
               (fmt.Sprintf ("Load certificate for %s failed" +:+ newline) [Name h]);;
             mret certs
         | Some cert => mret (certs ++ [cert])%list
         end
       else mret certs)
    [] (Hosts config);
  mret (tls.withCertificates certs tlsConfig).

(** ** [ShutdownServer]

    [closeHttp] and [closeTls] are what closing the listener of each
    server would answer. *)
Definition ShutdownServer (closeHttp closeTls : option error) : M unit :=
  s ← getService;
  match httpServer s with
  | Some srv =>
      let '(err, srv') := http.Shutdown closeHttp srv in
      emit GoMain (EvShutdown HTTP);;
      modifyService (set_httpServer (Some srv'));;
      match err with
      | Some e => emitErrorToFrontend GoMain (Error e)
      | None => mret tt
      end;;
      modifyService (set_httpServerRunning false)
  | None => mret tt
  end;;
  s ← getService;
  match tlsServer s with
  | Some srv =>
      let '(err, srv') := http.Shutdown closeTls srv in
      emit GoMain (EvShutdown TLS);;
      modifyService (set_tlsServer (Some srv'));;
      match err with
      | Some e => emitErrorToFrontend GoMain (Error e)
      | None => mret tt
      end;;
      modifyService (set_tlsServerRunning false)
  | None => mret tt
  end;;
  go GoMain removeHostsFileRecord.

(** ** The goroutines of [StartServer], statement by statement

    [answer] is what the operating system answers to the statements that
    ask it something: the error of [Listen] and the error [Serve] returns
    with ([None] is [nil]).  A step is [None] when the goroutine cannot
    move: it has not started, it has returned, it waits, or it would
    panic. *)

(** [wg.Done()]: a counter that would go negative is a panic. *)
Definition wgDone (t : Tid) (w : World) : option World :=
  if (0 <? wg w)%Z
  then Some (set_wg (wg w - 1) (exec (emit t EvDone) w))
  else None.

Definition newServer (port : Z) (tlsConfig : option tls.Config) : http.Server :=
  {| http.Addr := ":" +:+ ToString port;
     http.TLSConfig := tlsConfig;
     http.ReadTimeout := 10 * Second;
     http.WriteTimeout := 10 * Second;
     http.MaxHeaderBytes := Z.shiftl 1 20;
     http.inShutdown := false;
     http.tracking := false |}.

(** The answer of [Serve], and where the goroutine goes with it. *)
Definition afterServe {Pc} (emitPc : error -> Pc) (clearPc : Pc) (answer : option error) : Pc :=
  match answer with
  | Some e => if isErrServerClosed e then clearPc else emitPc e
  | None => clearPc
  end.

Definition startHttpServer_step (answer : option error) (w : World) : option World :=
  match pcHttp w with
  | H_none | H_failed | H_returned => None
  | H_new =>
      Some (set_pcHttp H_listen
              (exec (modifyService
                       (set_httpServer (Some (newServer (HttpPort (Setting config)) None)))) w))
  | H_listen =>
      srv ← httpServer (svc w);
      Some (set_pcHttp (match answer with
                        | Some e => H_fail_emit e
                        | None => H_set_running
                        end)
              (exec (emit GoHttp (EvListen (http.Addr srv) (bool_decide (answer = None)))) w))
  | H_fail_emit e =>
      Some (set_pcHttp H_fail_done (exec (emitErrorToFrontend GoHttp (Error e)) w))
  | H_fail_done => set_pcHttp H_failed <$> wgDone GoHttp w
  | H_set_running =>
      Some (set_pcHttp H_ok_done (exec (modifyService (set_httpServerRunning true)) w))
  | H_ok_done => set_pcHttp H_serve <$> wgDone GoHttp w
  | H_serve =>
      srv ← httpServer (svc w);
      if http.inShutdown srv
      then Some (set_pcHttp H_clear (exec (emit GoHttp EvServe) w))
      else Some (set_pcHttp H_serving
                   (exec (emit GoHttp EvServe;;
                          modifyService (set_httpServer (Some (http.withTracking true srv)))) w))
  | H_serving =>
      Some (set_pcHttp (afterServe H_served_emit H_clear answer)
              (exec (modifyService
                       (fun s => set_httpServer (http.withTracking false <$> httpServer s) s)) w))
  | H_served_emit e =>
      Some (set_pcHttp H_clear (exec (emitErrorToFrontend GoHttp (Error e)) w))
  | H_clear =>
      Some (set_pcHttp H_returned (exec (modifyService (set_httpServerRunning false)) w))
  end.

Definition startTlsServer_step (answer : option error) (w : World) : option World :=
  match pcTls w with
  | T_none | T_skipped | T_failed | T_returned => None
  | T_load =>
      let '(tlsConfig, w') := loadTLSConfig GoTls w in
      Some (set_pcTls (T_check tlsConfig) w')
  | T_check tlsConfig =>
      Some (set_pcTls (if (length (tls.Certificates tlsConfig) =? 0)%nat
                       then T_skip_clear else T_new tlsConfig) w)
  | T_skip_clear =>
      Some (set_pcTls T_skip_done (exec (modifyService (set_tlsServerRunning false)) w))
  | T_skip_done => set_pcTls T_skipped <$> wgDone GoTls w
  | T_new tlsConfig =>
      Some (set_pcTls (T_listen tlsConfig)
              (exec (modifyService
                       (set_tlsServer
                          (Some (newServer (HttpsPort (Setting config)) (Some tlsConfig))))) w))
  | T_listen tlsConfig =>
      srv ← tlsServer (svc w);
      Some (set_pcTls (match answer with
                       | Some e => T_fail_emit e
                       | None => T_set_running
                       end)
              (exec (emit GoTls (EvListen (http.Addr srv) (bool_decide (answer = None)))) w))
  | T_fail_emit e =>
      Some (set_pcTls T_fail_done (exec (emitErrorToFrontend GoTls (Error e)) w))
  | T_fail_done => set_pcTls T_failed <$> wgDone GoTls w
  | T_set_running =>
      Some (set_pcTls T_ok_done (exec (modifyService (set_tlsServerRunning true)) w))
  | T_ok_done => set_pcTls T_serve <$> wgDone GoTls w
  | T_serve =>
      srv ← tlsServer (svc w);
      if http.inShutdown srv
      then Some (set_pcTls T_clear (exec (emit GoTls EvServe) w))
      else Some (set_pcTls T_serving
                   (exec (emit GoTls EvServe;;
                          modifyService (set_tlsServer (Some (http.withTracking true srv)))) w))
  | T_serving =>
      Some (set_pcTls (afterServe T_served_emit T_clear answer)
              (exec (modifyService
                       (fun s => set_tlsServer (http.withTracking false <$> tlsServer s) s)) w))
  | T_served_emit e =>
      Some (set_pcTls T_clear (exec (emitErrorToFrontend GoTls (Error e)) w))
  | T_clear =>
      Some (set_pcTls T_returned (exec (modifyService (set_tlsServerRunning false)) w))
  end.

(** [StartServer]: the calling goroutine. *)
Definition StartServer_step (w : World) : option World :=
  match pcMain w with
  | M_go_hosts => Some (set_pcMain M_makeTargetMap (exec (go GoMain addHostsFileRecord) w))
  | M_makeTargetMap => Some (set_pcMain M_proxy (exec (modifyService makeTargetMap) w))
  | M_proxy =>
      Some (set_pcMain M_add (exec (modifyService (set_proxy (Some reverseProxy))) w))
  | M_add => Some (set_pcMain M_go_http (set_wg (0 + 2) w))
  | M_go_http =>
      match pcHttp w with
      | H_none => Some (set_pcMain M_go_tls (set_pcHttp H_new w))
      | _ => None
      end
  | M_go_tls =>
      match pcTls w with
      | T_none => Some (set_pcMain M_wait (set_pcTls T_load w))
      | _ => None
      end
  | M_wait => if (wg w =? 0)%Z then Some (set_pcMain M_read_http w) else None
  | M_read_http =>
      Some (set_pcMain (if httpServerRunning (svc w) then M_returned true
                        else M_read_tls) w)
  | M_read_tls => Some (set_pcMain (M_returned (tlsServerRunning (svc w))) w)
  | M_returned _ => None
  end.

(** A detached closure runs, in one step. *)
Definition task_step (i : nat) (answer : option error) (w : World) : option World :=
  task ← detached w !! i;
  Some (exec (runTask answer task) (set_detached (delete i (detached w)) w)).

(** One move of the scheduler. *)
Inductive Move :=
| MvMain
| MvHttp (answer : option error)
| MvTls (answer : option error)
| MvTask (i : nat) (answer : option error).

Definition step (m : Move) (w : World) : option World :=
  match m with
  | MvMain => StartServer_step w
  | MvHttp a => startHttpServer_step a w
  | MvTls a => startTlsServer_step a w
  | MvTask i a => task_step i a w
  end.

Fixpoint run (sched : list Move) (w : World) : option World :=
  match sched with
  | [] => Some w
  | m :: sched' => w' ← step m w; run sched' w'
  end.

(** The world in which [StartServer] is called on the service [s], no
    other goroutine of the service being alive. *)
Definition calling (s : Service) : World :=
  {| svc := s; wg := 0; trace := []; detached := [];
     pcMain := M_go_hosts; pcHttp := H_none; pcTls := T_none |}.

End Service.

(* ================================================================== *)
(** * Package [hostsFile] *)

Module hostsFile.

(** What the function does to the file system. *)
Inductive FileOp :=
| OpOpen (name : string) (flag : list string) (perm : Z)
| OpWrite (data : string)
| OpClose.

(** The file system as this package sees it: the content of the hosts
    file, and the operations performed on it, oldest first. *)
Record FS := {
  content : string;
  ops : list FileOp
}.

(** [os.OpenFile(name, O_APPEND|O_WRONLY, perm)]: neither creates nor
    truncates; [answer] is the error of the system call. *)
Definition OpenFile (answer : option error) (name : string) (perm : Z) (fs : FS)
  : option error * FS :=
  (answer,
   {| content := content fs;
      ops := ops fs ++ [OpOpen name ["O_APPEND"; "O_WRONLY"] perm] |}).

(** [file.Write(data)] on a file opened for appending (the function
    below never calls it). *)
Definition Write (data : string) (fs : FS) : FS :=
  {| content := content fs +:+ data; ops := ops fs ++ [OpWrite data] |}.

(** [file.Close()]. *)
Definition Close (fs : FS) : FS :=
  {| content := content fs; ops := ops fs ++ [OpClose] |}.

(** The loop over [domains]: the buffer it leaves, and the error it
    returns with. *)
Fixpoint writeLines (data : bytes.Buffer) (domains : list string)
  : bytes.Buffer * option error :=
  match domains with
  | [] => (data, None)
  | line :: rest =>
      let '(data', _, err) :=
        bytes.WriteString data
          ("127.0.0.1 " +:+ line +:+ " # Auto generated by local proxy" +:+ newline) in
      match err with
      | Some e => (data', Some e)
      | None => writeLines data' rest
      end
  end.

(** [WriteHostsFile(domains)]: the error it returns, the file system it
    leaves, and the buffer [data] as it stands when the function returns
    (the empty buffer when it was never made). *)
Definition WriteHostsFile (openAnswer : option error) (domains : list string) (fs : FS)
  : option error * FS * bytes.Buffer :=
  let '(err, fs) := OpenFile openAnswer "/etc/hosts" 420 fs in
  match err with
  | Some e => (Some e, fs, "")
  | None =>
      let '(data, err) := writeLines (bytes.NewBufferString newline) domains in
      (* the deferred file.Close() *)
      (err, Close fs, data)
  end.

End hostsFile.

(* ================================================================== *)
(** * Data for the examples *)

(** The examples below use ASCII strings, on which [strings.ToLower]
    never consults the case tables (lemma [ToLower_ascii]), and HTML
    bodies, on which content sniffing never reaches the tail of its table:
    any tables do. *)
Definition asciiTables : UnicodeTables := {| mapLower := fun s => s |}.
Definition htmlSniffTable : SniffTable :=
  {| sniffRest := fun _ => "application/octet-stream" |}.

Definition host (name target : string) : HostConfig :=
  {| Name := name; DefaultTarget := target; EnableTLS := false;
     TLSCertFile := ""; TLSKeyFile := "" |}.

Definition tlsHost (name target cert key : string) : HostConfig :=
  {| Name := name; DefaultTarget := target; EnableTLS := true;
     TLSCertFile := cert; TLSKeyFile := key |}.

Definition ports : SettingConfig := {| HttpPort := 80; HttpsPort := 443 |}.

(** A file system with one good key pair, [a.pem]/[a.key]. *)
Definition oneKeyPair (certFile keyFile : string) : option tls.Certificate :=
  if String.eqb certFile "a.pem" && String.eqb keyFile "a.key"
  then Some {| tls.CertificateChain := ["a"]; tls.PrivateKey := "k" |}
  else None.

(** A file system without key pairs. *)
Definition noKeyPair (certFile keyFile : string) : option tls.Certificate := None.


(* ================================================================== *)
(** * Package [os]: the file system *)

Module os.

(** Files with their content, and directories, by path. *)
Record FS := {
  files : gmap string string;
  dirs : gset string
}.

(** What [os.Stat] answers: the file information (here: is it a
    directory?), an error for which [os.IsNotExist] holds, or another
    error. *)
Inductive StatResult :=
| StatInfo (isDir : bool)
| StatNotExist
| StatFailed (e : error).

(** In [Stat], [Mkdir] and [ReadFile], [fault] is an error the operating
    system raises for a reason this model does not hold (permissions, a
    failing disk); [None] when it raises none. *)

Definition Stat (fault : option error) (name : string) (fs : FS) : StatResult :=
  match fault with
  | Some e => StatFailed e
  | None =>
      if bool_decide (name ∈ dirs fs) then StatInfo true
      else match files fs !! name with
           | Some _ => StatInfo false
           | None => StatNotExist
           end
  end.

(** [os.Mkdir(name, perm)]: fails on a path that exists. *)
Definition Mkdir (fault : option error) (name : string) (perm : Z) (fs : FS)
  : option error * FS :=
  match fault with
  | Some e => (Some e, fs)
  | None =>
      if bool_decide (name ∈ dirs fs) || bool_decide (is_Some (files fs !! name))
      then (Some (errorString ("mkdir " +:+ name +:+ ": file exists")), fs)
      else (None, {| files := files fs; dirs := {[name]} ∪ dirs fs |})
  end.

(** [os.ReadFile(name)]. *)
Definition ReadFile (fault : option error) (name : string) (fs : FS) : string + error :=
  match fault with
  | Some e => inr e
  | None =>
      if bool_decide (name ∈ dirs fs)
      then inr (errorString ("read " +:+ name +:+ ": is a directory"))
      else match files fs !! name with
           | Some data => inl data
           | None => inr (errorString ("open " +:+ name +:+ ": no such file or directory"))
           end
  end.

(** What happens to [os.WriteFile]: it opens the file, creating or
    truncating it, and then writes.  Opening may fail, or the writing may
    fail after [written] bytes. *)
Inductive WriteAnswer :=
| WriteOk
| OpenFailed (e : error)
| WriteFailed (e : error) (written : nat).

(** [os.WriteFile(name, data, perm)]. *)
Definition WriteFile (answer : WriteAnswer) (name data : string) (perm : Z) (fs : FS)
  : option error * FS :=
  match answer with
  | OpenFailed e => (Some e, fs)
  | _ =>
      if bool_decide (name ∈ dirs fs)
      then (Some (errorString ("open " +:+ name +:+ ": is a directory")), fs)
      else
        match answer with
        | WriteFailed e written =>
            (Some e, {| files := <[name := sliceTo written data]> (files fs);
                        dirs := dirs fs |})
        | _ => (None, {| files := <[name := data]> (files fs); dirs := dirs fs |})
        end
  end.

End os.

(* ================================================================== *)
(** * Package [utils] *)

Module utils.

(** [FileExists(path)]: every error of [os.Stat] counts as absence. *)
Definition FileExists (fault : option error) (path : string) (fs : os.FS) : bool :=
  match os.Stat fault path fs with
  | os.StatInfo _ => true
  | os.StatNotExist => false
  | os.StatFailed _ => false
  end.

(** [IsDir(path)]. *)
Definition IsDir (fault : option error) (path : string) (fs : os.FS) : bool :=
  match os.Stat fault path fs with
  | os.StatInfo isDir => isDir
  | _ => false
  end.

End utils.

(* ================================================================== *)
(** * Package [userData] *)

Module userData.

Definition AppName : string := "Local Proxy".

(** [configFile]. *)
Record configFile := {
  Hosts : list HostConfig
}.

(** What [runtime.EventsEmit(ctx, name, data...)] sends to the front end
    ([ctx] is [None] for the [nil] context). *)
Inductive FrontendEvent :=
| EventsEmit (ctx : option string) (name : string) (data : list string).

(** The package variables ([config] is a pointer, [nil] before [Init];
    [runtimeCtx] is the context [Init] was given), the file system, the
    events sent so far and the number of [saveConfig] goroutines that
    have been started and have not run yet. *)
Record State := {
  configFilePath : string;
  config : option configFile;
  runtimeCtx : option string;
  fs : os.FS;
  emitted : list FrontendEvent;
  saving : nat
}.

(** A function returns with a state, or panics with an error. *)
Inductive Outcome :=
| Returns (st : State)
| Panics (e : error).

Definition set_configFilePath (v : string) (st : State) : State :=
  {| configFilePath := v; config := config st; runtimeCtx := runtimeCtx st;
     fs := fs st; emitted := emitted st; saving := saving st |}.

Definition set_config (v : option configFile) (st : State) : State :=
  {| configFilePath := configFilePath st; config := v; runtimeCtx := runtimeCtx st;
     fs := fs st; emitted := emitted st; saving := saving st |}.

Definition set_runtimeCtx (v : option string) (st : State) : State :=
  {| configFilePath := configFilePath st; config := config st; runtimeCtx := v;
     fs := fs st; emitted := emitted st; saving := saving st |}.

Definition set_fs (v : os.FS) (st : State) : State :=
  {| configFilePath := configFilePath st; config := config st;
     runtimeCtx := runtimeCtx st; fs := v; emitted := emitted st; saving := saving st |}.

Definition emitEvent (ev : FrontendEvent) (st : State) : State :=
  {| configFilePath := configFilePath st; config := config st;
     runtimeCtx := runtimeCtx st; fs := fs st;
     emitted := (emitted st ++ [ev])%list; saving := saving st |}.

Definition set_saving (v : nat) (st : State) : State :=
  {| configFilePath := configFilePath st; config := config st;
     runtimeCtx := runtimeCtx st; fs := fs st; emitted := emitted st; saving := v |}.

(** What the operating system answers while [Init] runs: the result of
    [os.UserConfigDir()], and the faults of the calls in their order. *)
Record InitAnswers := {
  userConfigDir : string + error;
  statDirFault : option error;
  mkdirFault : option error;
  statFileFault : option error;
  readFault : option error
}.

Section Code.

(** [string(os.PathSeparator)], a constant of the platform. *)
Variable PathSeparator : string.

(** [json.Marshal(config)] and [json.Unmarshal(data, &config)]: the
    encoding is the standard library's; decoding works on the value
    [config] points to, which it may allocate or fill in. *)
Variable Marshal : option configFile -> string + error.
Variable Unmarshal : string -> option configFile -> option configFile + error.

(** [getConfigPath()]: the directory, or the error it panics with. *)
Definition getConfigPath (a : InitAnswers) : string + error :=
  match userConfigDir a with
  | inr err => inr err
  | inl configDir => inl (configDir +:+ PathSeparator +:+ AppName)
  end.

(** [parseConfig()]. *)
Definition parseConfig (statFault readFault : option error) (st : State) : Outcome :=
  if negb (utils.FileExists statFault (configFilePath st) (fs st)) then
    Returns (set_config (Some {| Hosts := [] |}) st)
  else
    match os.ReadFile readFault (configFilePath st) (fs st) with
    | inr err => Panics err
    | inl fileContent =>
        match Unmarshal fileContent (config st) with
        | inr err => Panics err
        | inl c => Returns (set_config c st)
        end
    end.

(** [Init(ctx)]. *)
Definition Init (ctx : string) (a : InitAnswers) (st : State) : Outcome :=
  let st := set_runtimeCtx (Some ctx) st in
  match getConfigPath a with
  | inr err => Panics err
  | inl configDir =>
      let made :=
        if negb (utils.FileExists (statDirFault a) configDir (fs st)) then
          os.Mkdir (mkdirFault a) configDir 493 (fs st)
        else (None, fs st) in
      match made with
      | (Some err, _) => Panics err
      | (None, fs') =>
          let st := set_fs fs' st in
          let st :=
            if String.eqb (configFilePath st) ""
            then set_configFilePath (configDir +:+ PathSeparator +:+ "config.json") st
            else st in
          parseConfig (statFileFault a) (readFault a) st
      end
  end.

(** [saveConfig()] starts a goroutine and returns. *)
Definition saveConfig (st : State) : State := set_saving (S (saving st)) st.

(** The goroutine of [saveConfig], when it runs: it reads [config],
    [configFilePath] and [runtimeCtx] then. *)
Definition saveConfig_run (answer : os.WriteAnswer) (st : State) : option State :=
  match saving st with
  | O => None
  | S n =>
      let st := set_saving n st in
      Some
        match Marshal (config st) with
        | inr err =>
            emitEvent
              (EventsEmit (runtimeCtx st) "error" ["Encode config failed, " +:+ Error err])
              st
        | inl content =>
            match os.WriteFile answer (configFilePath st) content 493 (fs st) with
            | (Some err, fs') =>
                emitEvent
                  (EventsEmit (runtimeCtx st) "error" ["Save config failed, " +:+ Error err])
                  (set_fs fs' st)
            | (None, fs') =>
                emitEvent (EventsEmit (runtimeCtx st) "hostsChange" []) (set_fs fs' st)
            end
        end
  end.

End Code.

End userData.

(** * The stored configuration: vocabulary *)

(** The configuration without hosts. *)
Definition emptyConfig : userData.configFile := {| userData.Hosts := [] |}.

(** Is [path] a file or a directory of [fs]? *)
Definition present (path : string) (fs : os.FS) : Prop :=
  path ∈ os.dirs fs \/ is_Some (os.files fs !! path).

(** * Inputs of the examples *)

(** Two hosts, one with a target that does not parse. *)
Definition twoHosts : Config :=
  {| Hosts := [host "a.test" "http://127.0.0.1:9001"; host "b.test" "127.0.0.1:9001"];
     Setting := ports |}.

(** A name in mixed case, and a target that is a relative reference. *)
Definition mixedHosts : Config :=
  {| Hosts := [host "A.test" "http://127.0.0.1:9001"; host "b.test" "/up"];
     Setting := ports |}.

(** One host with a key pair that loads. *)
Definition tlsHosts : Config :=
  {| Hosts := [tlsHost "a.test" "http://127.0.0.1:9001" "a.pem" "a.key"];
     Setting := ports |}.

(** The world a schedule leads to (the starting world if it cannot run). *)
Definition reached `{UnicodeTables} (config : Config)
    (load : string -> string -> option tls.Certificate)
    (sched : list Move) (w : World) : World :=
  default w (run config load sched w).

(** [StartServer] up to [wg.Wait()], the hosts file registered, the HTTP
    bind succeeding and the loop serving, TLS skipped. *)
Definition startHttpOnly : list Move :=
  [MvMain; MvMain; MvMain; MvMain; MvMain; MvMain; MvTask 0 None;
   MvHttp None; MvHttp None; MvHttp None; MvHttp None; MvHttp None;
   MvTls None; MvTls None; MvTls None; MvTls None; MvMain].



Definition getRoot : http.Request :=
  {| http.Method := "GET"; http.URL := url.emptyURL; http.Proto := "HTTP/1.1";
     http.Header := ∅; http.Host := "a.test"; http.RemoteAddr := "127.0.0.1:50000";
     http.RequestURI := "/" |}.

Definition headRoot : http.Request :=
  {| http.Method := "HEAD"; http.URL := url.emptyURL; http.Proto := "HTTP/1.1";
     http.Header := ∅; http.Host := "a.test"; http.RemoteAddr := "127.0.0.1:50000";
     http.RequestURI := "/" |}.

(** The same name three times: two targets, and an entry without
    target. *)
Definition sameName : Config :=
  {| Hosts := [host "a.test" "http://127.0.0.1:9001"; host "a.test" "http://127.0.0.1:9002";
               host "a.test" ""];
     Setting := ports |}.

(** What [url.Parse] makes of a target (the empty URL if it fails). *)
Definition targetOf `{UnicodeTables} (rawURL : string) : url.URL :=
  default url.emptyURL (url.Parse rawURL).

(** [StartServer] on which the HTTP bind fails and TLS serves. *)
Definition bindDenied : error := errorString "listen tcp :80: bind: permission denied".

(** A writer that has sent its header and the start of a page. *)
Definition pageStarted `{SniffTable} : http.ResponseWriter :=
  (http.Write "<p>One moment" (http.newResponse getRoot)).1.

(** A codec that suffices for the configuration without hosts. *)
Definition encodeEmpty (c : option userData.configFile) : string + error :=
  match c with
  | None => inl "null"
  | Some c =>
      match userData.Hosts c with
      | [] => inl "{}"
      | _ => inr (errorString "json: unsupported value")
      end
  end.

Definition decodeEmpty (data : string) (c : option userData.configFile)
  : option userData.configFile + error :=
  if String.eqb data "null" then inl None
  else if String.eqb data "{}"
       then inl (Some (default emptyConfig c))
       else inr (errorString "invalid character").

(** A machine on which the program has not run yet; one on which it has. *)
Definition freshDisk : os.FS :=
  {| os.files := ∅; os.dirs := {["/home/u/.config"]} |}.

Definition usedDisk : os.FS :=
  {| os.files := {["/home/u/.config/Local Proxy/config.json" := "{...}"]};
     os.dirs := {["/home/u/.config"; "/home/u/.config/Local Proxy"]} |}.

Definition atStart (disk : os.FS) : userData.State :=
  {| userData.configFilePath := ""; userData.config := None;
     userData.runtimeCtx := None; userData.fs := disk;
     userData.emitted := []; userData.saving := 0 |}.

Definition noFaults : userData.InitAnswers :=
  {| userData.userConfigDir := inl "/home/u/.config";
     userData.statDirFault := None; userData.mkdirFault := None;
     userData.statFileFault := None; userData.readFault := None |}.

Definition statDenied : userData.InitAnswers :=
  {| userData.userConfigDir := inl "/home/u/.config";
     userData.statDirFault := Some (errorString "stat: permission denied");
     userData.mkdirFault := None;
     userData.statFileFault := None; userData.readFault := None |}.

(** The state a call leaves (the given one if it panics). *)
Definition returned (o : userData.Outcome) (st : userData.State) : userData.State :=
  match o with
  | userData.Returns st' => st'
  | userData.Panics _ => st
  end.

Definition initialised : userData.State :=
  returned (userData.Init "/" decodeEmpty "app" noFaults (atStart freshDisk))
    (atStart freshDisk).

(* ================================================================== *)
(** * Verification *)

Open Scope list_scope.

Section Verification.

Context `{UnicodeTables} `{SniffTable}.

(** The configuration and the key pairs on disk, as in section [Service]. *)
Variable config : Config.
Variable LoadX509KeyPair : string -> string -> option tls.Certificate.

Local Abbreviation step := (step config LoadX509KeyPair).
Local Abbreviation run := (run config LoadX509KeyPair).

(** ** The vocabulary of the statements *)

(** [s] contains [x]. *)
Definition substringOf (x s : string) : Prop :=
  exists pre post, s = pre +:+ x +:+ post.

(** What one round of the loop of [makeTargetMap] does to the map. *)
Definition registers (h : HostConfig) : Prop :=
  DefaultTarget h <> "" /\ is_Some (url.Parse (DefaultTarget h)).

(** The entries [loadTLSConfig] tries to load. *)
Definition eligibleTLS (h : HostConfig) : bool :=
  EnableTLS h && negb (String.eqb (TLSCertFile h) "")
  && negb (String.eqb (TLSKeyFile h) "").

Definition loadOf (h : HostConfig) : option tls.Certificate :=
  LoadX509KeyPair (TLSCertFile h) (TLSKeyFile h).

Definition failsToLoad (h : HostConfig) : bool :=
  match loadOf h with Some _ => false | None => true end.

(** The warning that names host [h]. *)
Definition loadWarning (t : Tid) (h : HostConfig) : Tid * Event :=
  (t, EvWarning ("Load certificate for " +:+ Name h +:+ " failed" +:+ newline)).

(** What [loadTLSConfig] returns and emits. *)
Definition loadedCertificates : list tls.Certificate :=
  omap loadOf (List.filter eligibleTLS (Hosts config)).

Definition loadWarnings (t : Tid) : list (Tid * Event) :=
  map (loadWarning t) (List.filter failsToLoad (List.filter eligibleTLS (Hosts config))).

Definition loadedConfig : tls.Config :=
  {| tls.MinVersion := tls.VersionTLS12;
     tls.CurvePreferences := [tls.CurveP521; tls.CurveP384; tls.CurveP256];
     tls.CipherSuites :=
       [ tls.TLS_ECDHE_ECDSA_WITH_AES_128_GCM_SHA256;
         tls.TLS_ECDHE_RSA_WITH_AES_128_GCM_SHA256;
         tls.TLS_ECDHE_ECDSA_WITH_AES_256_GCM_SHA384;
         tls.TLS_ECDHE_RSA_WITH_AES_256_GCM_SHA384;
         tls.TLS_ECDHE_ECDSA_WITH_CHACHA20_POLY1305;
         tls.TLS_ECDHE_RSA_WITH_CHACHA20_POLY1305 ];
     tls.Certificates := loadedCertificates |}.

(** The page before and after the error text. *)
Definition badGatewayOpening : string :=
  "<div style=" +:+ String dquote "text-align: center" +:+ String dquote
  "><h2>Bad Gateway</h2><p>".

Definition badGatewayPage (msg : string) : string :=
  badGatewayOpening +:+ msg +:+ "</p>".

(** * The hosts file *)

(** The lines [WriteHostsFile] puts together. *)
Fixpoint hostsLines (domains : list string) : string :=
  match domains with
  | [] => ""
  | line :: rest =>
      ("127.0.0.1 " +:+ line +:+ " # Auto generated by local proxy" +:+ newline)
      +:+ hostsLines rest
  end.

(** * The start-up barrier *)

(** Has the goroutine signalled the barrier?  These are the places after
    its [wg.Done()]: the bind has failed ([H_failed]), or it has
    succeeded and the goroutine is about to serve, serves or has served. *)
Definition httpResolved (pc : HttpPc) : bool :=
  match pc with
  | H_failed | H_serve | H_serving | H_served_emit _ | H_clear | H_returned => true
  | _ => false
  end.

(** For TLS the bind may also have been skipped ([T_skipped]). *)
Definition tlsResolved (pc : TlsPc) : bool :=
  match pc with
  | T_skipped | T_failed | T_serve | T_serving | T_served_emit _ | T_clear
  | T_returned => true
  | _ => false
  end.

(** Has [StartServer] passed [wg.Add(2)]? [wg.Wait()]? *)
Definition added (pc : MainPc) : bool :=
  match pc with
  | M_go_hosts | M_makeTargetMap | M_proxy | M_add => false
  | _ => true
  end.

Definition pastWait (pc : MainPc) : bool :=
  match pc with
  | M_read_http | M_read_tls | M_returned _ => true
  | _ => false
  end.

Definition beforeGoHttp (pc : MainPc) : bool :=
  match pc with
  | M_go_hosts | M_makeTargetMap | M_proxy | M_add | M_go_http => true
  | _ => false
  end.

Definition beforeGoTls (pc : MainPc) : bool :=
  match pc with
  | M_go_hosts | M_makeTargetMap | M_proxy | M_add | M_go_http | M_go_tls => true
  | _ => false
  end.

Definition tidEqb (a b : Tid) : bool :=
  match a, b with
  | GoMain, GoMain | GoHttp, GoHttp | GoTls, GoTls | GoTask, GoTask => true
  | _, _ => false
  end.

Definition isDone (t : Tid) (x : Tid * Event) : bool :=
  match x with
  | (t', EvDone) => tidEqb t t'
  | _ => false
  end.

(** How often goroutine [t] has called [wg.Done()]. *)
Definition doneCount (t : Tid) (l : list (Tid * Event)) : nat :=
  length (List.filter (isDone t) l).

Definition b2z (b : bool) : Z := if b then 1 else 0.

(** What the trace holds: a bind attempt of goroutine [t], a bind that
    succeeded, an error report. *)
Definition isListen (t : Tid) (x : Tid * Event) : bool :=
  match x with
  | (t', EvListen _ _) => tidEqb t t'
  | _ => false
  end.

Definition isBound (t : Tid) (x : Tid * Event) : bool :=
  match x with
  | (t', EvListen _ true) => tidEqb t t'
  | _ => false
  end.

Definition isReport (t : Tid) (x : Tid * Event) : bool :=
  match x with
  | (t', EvError _) => tidEqb t t'
  | _ => false
  end.

Definition attempted (t : Tid) (l : list (Tid * Event)) : bool := existsb (isListen t) l.

Definition bound (t : Tid) (l : list (Tid * Event)) : bool := existsb (isBound t) l.

Definition reported (t : Tid) (l : list (Tid * Event)) : bool := existsb (isReport t) l.

Definition barrier_inv (w : World) : Prop :=
  wg w = (2 * b2z (added (pcMain w)) - b2z (httpResolved (pcHttp w))
          - b2z (tlsResolved (pcTls w)))%Z
  /\ (pastWait (pcMain w) = true -> wg w = 0%Z)
  /\ (beforeGoHttp (pcMain w) = true -> pcHttp w = H_none)
  /\ (beforeGoTls (pcMain w) = true -> pcTls w = T_none)
  /\ Z.of_nat (doneCount GoHttp (trace w)) = b2z (httpResolved (pcHttp w))
  /\ Z.of_nat (doneCount GoTls (trace w)) = b2z (tlsResolved (pcTls w)).

(** ** The flags and the binds

    [s0] is the service [StartServer] was called on. *)

Definition http_inv (s0 : Service) (w : World) : Prop :=
  let flag := httpServerRunning (svc w) in
  let l := trace w in
  match pcHttp w with
  | H_none | H_new | H_listen =>
      flag = httpServerRunning s0 /\ attempted GoHttp l = false /\ bound GoHttp l = false
  | H_fail_emit _ | H_fail_done | H_failed =>
      flag = httpServerRunning s0 /\ attempted GoHttp l = true /\ bound GoHttp l = false
  | H_set_running =>
      flag = httpServerRunning s0 /\ attempted GoHttp l = true /\ bound GoHttp l = true
  | H_ok_done | H_serve | H_serving | H_served_emit _ | H_clear =>
      flag = true /\ attempted GoHttp l = true /\ bound GoHttp l = true
  | H_returned => flag = false /\ attempted GoHttp l = true /\ bound GoHttp l = true
  end.

Definition tls_inv (s0 : Service) (w : World) : Prop :=
  let flag := tlsServerRunning (svc w) in
  let l := trace w in
  match pcTls w with
  | T_none | T_load | T_check _ | T_skip_clear | T_new _ | T_listen _ =>
      flag = tlsServerRunning s0 /\ attempted GoTls l = false /\ bound GoTls l = false
  | T_skip_done | T_skipped =>
      flag = false /\ attempted GoTls l = false /\ bound GoTls l = false
  | T_fail_emit _ | T_fail_done | T_failed =>
      flag = tlsServerRunning s0 /\ attempted GoTls l = true /\ bound GoTls l = false
  | T_set_running =>
      flag = tlsServerRunning s0 /\ attempted GoTls l = true /\ bound GoTls l = true
  | T_ok_done | T_serve | T_serving | T_served_emit _ | T_clear =>
      flag = true /\ attempted GoTls l = true /\ bound GoTls l = true
  | T_returned => flag = false /\ attempted GoTls l = true /\ bound GoTls l = true
  end.

(** ** The second read of [StartServer]

    Between the two reads of the return statement the HTTP flag cannot
    turn true: the HTTP goroutine has signalled the barrier. *)
Definition read_inv (w : World) : Prop :=
  barrier_inv w
  /\ (pcMain w = M_read_tls -> httpServerRunning (svc w) = false).

(** ** When no certificate loads *)


(** ** The servers *)

(** A flag is only ever set on a server that exists. *)
Definition wf (s : Service) : Prop :=
  (httpServer s = None -> httpServerRunning s = false)
  /\ (tlsServer s = None -> tlsServerRunning s = false).

Definition httpMade (pc : HttpPc) : bool :=
  match pc with H_none | H_new => false | _ => true end.

Definition tlsMade (pc : TlsPc) : bool :=
  match pc with
  | T_none | T_load | T_check _ | T_skip_clear | T_skip_done | T_skipped | T_new _ => false
  | _ => true
  end.

Definition srv_inv (w : World) : Prop :=
  wf (svc w)
  /\ (httpMade (pcHttp w) = true -> is_Some (httpServer (svc w)))
  /\ (tlsMade (pcTls w) = true -> is_Some (tlsServer (svc w))).

(** ** Serving comes after the signal *)

Definition isServe (t : Tid) (x : Tid * Event) : bool :=
  match x with
  | (t', EvServe) => tidEqb t t'
  | _ => false
  end.

Definition served (t : Tid) (l : list (Tid * Event)) : bool := existsb (isServe t) l.

Definition serve_inv (w : World) : Prop :=
  (served GoHttp (trace w) = true -> httpResolved (pcHttp w) = true)
  /\ (served GoTls (trace w) = true -> tlsResolved (pcTls w) = true).

(** ** All of it, of every world a schedule reaches *)

Definition start_inv (s0 : Service) (w : World) : Prop :=
  read_inv w /\ http_inv s0 w /\ tls_inv s0 w /\ serve_inv w.

(** A schedule on which [StartServer] returns while the HTTP serve loop
    runs: the HTTP bind succeeds, the TLS side is skipped (no certificate)
    or fails to bind. *)
Definition serveOnReturn (skipped : bool) : list Move :=
  [MvMain; MvMain; MvMain; MvMain; MvMain; MvMain;
   MvHttp None; MvHttp None; MvHttp None; MvHttp None; MvHttp None]
  ++ MvTls None
  :: (if skipped then [MvTls None; MvTls None; MvTls None]
      else [MvTls None; MvTls None;
            MvTls (Some (errorString "listen tcp :443: bind: address already in use"));
            MvTls None; MvTls None])
  ++ [MvMain; MvMain].

(** * [ShutdownServer] *)

(** What shutting one server down adds to the trace. *)
Definition shutdownEvents (p : Proto) (closeAnswer : option error)
    (srv : option http.Server) : list (Tid * Event) :=
  match srv with
  | Some srv =>
      (GoMain, EvShutdown p)
      :: match (http.Shutdown closeAnswer srv).1 with
         | Some e => [(GoMain, EvError (Error e))]
         | None => []
         end
  | None => []
  end.

(** The server after [Shutdown]. *)
Definition shutDown (srv : option http.Server) : option http.Server :=
  (fun x => (http.Shutdown None x).2) <$> srv.

(** The service after [ShutdownServer]. *)
Definition stopped (s : Service) : Service :=
  {| httpServerRunning :=
       match httpServer s with Some _ => false | None => httpServerRunning s end;
     tlsServerRunning :=
       match tlsServer s with Some _ => false | None => tlsServerRunning s end;
     targetMap := targetMap s;
     httpServer := shutDown (httpServer s);
     tlsServer := shutDown (tlsServer s);
     proxy := proxy s |}.

(** ** Two calls in a row *)

(** No call of [StartServer] is under way: it has not been called, or it
    has returned. *)
Definition quiet (pc : MainPc) : bool :=
  match pc with
  | M_go_hosts | M_returned _ => true
  | _ => false
  end.

(** The goroutine has not started or has signalled the barrier. *)
Definition httpSettled (pc : HttpPc) : bool :=
  match pc with H_none => true | _ => httpResolved pc end.

Definition tlsSettled (pc : TlsPc) : bool :=
  match pc with T_none => true | _ => tlsResolved pc end.

(** A server that was shut down. *)
Definition isShut (srv : option http.Server) : Prop :=
  forall x, srv = Some x -> http.inShutdown x = true /\ http.tracking x = false.

Definition isMain (m : Move) : bool :=
  match m with MvMain => true | _ => false end.

(** What holds between the two calls, whatever the goroutines do. *)
Definition shut_inv (w : World) : Prop :=
  httpSettled (pcHttp w) = true
  /\ tlsSettled (pcTls w) = true
  /\ isShut (httpServer (svc w))
  /\ isShut (tlsServer (svc w))
  /\ wf (svc w).

(** * More about the registry *)

(** Does the string hold one of the bytes [A] to [Z]? *)
Fixpoint hasCapital (s : string) : bool :=
  match s with
  | EmptyString => false
  | String c rest => inRange "A" "Z" c || hasCapital rest
  end.

(** Has [StartServer] passed its call of [makeTargetMap]? *)
Definition built (pc : MainPc) : bool :=
  match pc with
  | M_go_hosts | M_makeTargetMap => false
  | _ => true
  end.

(** ** The registry while the service runs *)

Definition registry_inv (s0 : Service) (w : World) : Prop :=
  targetMap (svc w)
  = if built (pcMain w) then targetMap (makeTargetMap config newService)
    else targetMap s0.

(** * More about [StartServer] and [ShutdownServer] *)

(** Does the writer take [data]: its status allows a body, and a declared
    length leaves room for the data. *)
Definition takes (w : http.ResponseWriter) (data : string) : bool :=
  http.bodyAllowedForStatus (http.status w)
  && match http.contentLength w with
     | Some declared =>
         (http.written w + Z.of_nat (String.length data) <=? declared)%Z
     | None => true
     end.

(** How many errors goroutine [t] has reported. *)
Definition reportCount (t : Tid) (l : list (Tid * Event)) : nat :=
  length (List.filter (isReport t) l).




(** A schedule on which the HTTP bind fails with [e] and the TLS server
    binds and serves, [StartServer] returning meanwhile. *)
Definition httpFailsTlsServes (e : error) : list Move :=
  [MvMain; MvMain; MvMain; MvMain; MvMain; MvMain;
   MvHttp None; MvHttp (Some e); MvHttp None; MvHttp None]
  ++ MvTls None
  :: [MvTls None; MvTls None; MvTls None; MvTls None; MvTls None; MvTls None;
      MvMain; MvMain; MvMain].

(** ** The servers of the two goroutines *)

Definition servers_inv (s0 : Service) (w : World) : Prop :=
  (if httpMade (pcHttp w)
   then exists b, httpServer (svc w)
                  = Some (http.withTracking b (newServer (HttpPort (Setting config)) None))
   else httpServer (svc w) = httpServer s0)
  /\ (if tlsMade (pcTls w)
      then loadedCertificates <> []
           /\ exists b, tlsServer (svc w)
                        = Some (http.withTracking b
                                  (newServer (HttpsPort (Setting config))
                                     (Some (loadedConfig))))
      else tlsServer (svc w) = tlsServer s0)
  /\ match pcTls w with
     | T_check c => c = loadedConfig
     | T_new c =>
         c = loadedConfig
         /\ loadedCertificates <> []
     | _ => True
     end.

(** ** Lemmas and theorems *)

(** * Facts about strings *)

Lemma append_cons (x : ascii) (a b : string) : String x a +:+ b = String x (a +:+ b).
Proof. reflexivity. Qed.

Lemma append_assoc (a b c : string) : (a +:+ b) +:+ c = a +:+ (b +:+ c).
Proof.
  induction a as [|x a IH]; [reflexivity |].
  by rewrite !append_cons, IH.
Qed.

Lemma append_nil_r (a : string) : a +:+ "" = a.
Proof.
  induction a as [|x a IH]; [reflexivity |].
  by rewrite append_cons, IH.
Qed.

(** On ASCII-only strings [ToLower] does not consult the case tables. *)
Lemma ToLower_ascii (t1 t2 : UnicodeTables) (s : string) :
  strings.isASCII s = true ->
  @strings.ToLower t1 s = @strings.ToLower t2 s.
Proof. intros Hs. unfold strings.ToLower. by rewrite Hs. Qed.

Lemma makeTargetMap_fold (hosts : list HostConfig) (m : gmap string url.URL) (k : string) :
  k ∈ dom (foldl (fun (m : gmap string url.URL) (h : HostConfig) =>
                    if negb (String.eqb (DefaultTarget h) "") then
                      match url.Parse (DefaultTarget h) with
                      | Some u => <[Name h := u]> m
                      | None => m
                      end
                    else m) m hosts)
  <-> k ∈ dom m \/ exists h, h ∈ hosts /\ k = Name h /\ registers h.
Proof.
  revert m. induction hosts as [|h hosts IH]; intros m; simpl.
  - split; [by left | intros [Hk | (h & Hh & _)]; [done | by apply elem_of_nil in Hh]].
  - rewrite IH. unfold registers.
    destruct (String.eqb_spec (DefaultTarget h) "") as [Hempty | Hfull]; simpl.
    + split.
      * intros [Hk | (h' & Hh' & Hn & Hr)]; [by left | right].
        exists h'. split; [by apply list_elem_of_further | done].
      * intros [Hk | (h' & Hh' & Hn & Hne & Hp)]; [by left |].
        apply elem_of_cons in Hh' as [Heq | Hh']; [subst h'; done |].
        right. by exists h'.
    + destruct (url.Parse (DefaultTarget h)) as [u|] eqn:Hu.
      * rewrite dom_insert_L. split.
        -- intros [Hk | (h' & Hh' & Hn & Hr)].
           ++ apply elem_of_union in Hk as [Hk | Hk]; [| by left].
              apply elem_of_singleton in Hk. right. exists h.
              split; [by apply list_elem_of_here |].
              split; [done |]. split; [done |]. rewrite Hu. by eexists.
           ++ right. exists h'. split; [by apply list_elem_of_further | done].
        -- intros [Hk | (h' & Hh' & Hn & Hr)]; [left; apply elem_of_union; by right |].
           apply elem_of_cons in Hh' as [Heq | Hh']; [subst h' |].
           ++ left. apply elem_of_union. left. by apply elem_of_singleton.
           ++ right. by exists h'.
      * split.
        -- intros [Hk | (h' & Hh' & Hn & Hr)]; [by left | right].
           exists h'. split; [by apply list_elem_of_further | done].
        -- intros [Hk | (h' & Hh' & Hn & Hne & Hp)]; [by left |].
           apply elem_of_cons in Hh' as [Heq | Hh']; [subst h' |].
           ++ rewrite Hu in Hp. by destruct Hp.
           ++ right. by exists h'.
Qed.

(** The keys of the registry, as the code builds them: the names as they
    are configured. *)
Lemma makeTargetMap_keys (s : Service) (k : string) :
  k ∈ dom (targetMap (makeTargetMap config s))
  <-> exists h, h ∈ Hosts config /\ k = Name h /\ registers h.
Proof.
  unfold makeTargetMap. simpl. rewrite makeTargetMap_fold.
  split; [intros [Hk | Hk]; [| done] | by right].
  rewrite dom_empty_L in Hk. by apply not_elem_of_empty in Hk.
Qed.

(** C1 (as amended): for every list of host entries whose names are
    already lowercase, the keys of the registry that [makeTargetMap]
    builds are exactly the lowercase names of the entries whose
    [DefaultTarget] is non-empty and is accepted by [url.Parse] (which
    accepts relative references as well); an entry with an empty or an
    unparseable target contributes no key. *)
Theorem makeTargetMap_keys_lowercase (s : Service) (k : string) :
  Forall (fun h => strings.ToLower (Name h) = Name h) (Hosts config) ->
  k ∈ dom (targetMap (makeTargetMap config s))
  <-> exists h, h ∈ Hosts config /\ k = strings.ToLower (Name h)
                /\ DefaultTarget h <> "" /\ is_Some (url.Parse (DefaultTarget h)).
Proof.
  intros Hlow. rewrite makeTargetMap_keys. rewrite Forall_forall in Hlow.
  split; intros (h & Hh & Hk & Hr); exists h; (split; [done |]);
    (split; [| exact Hr]); [by rewrite Hlow | by rewrite <- Hlow].
Qed.

(** C2: the [Director] lowercases the host of the request and looks it up
    in the registry; on a match it replaces the scheme and the host of the
    outgoing URL by those of the target and nothing else (path, query and
    the rest of the request stay as they are); without a match it leaves
    the request as it is. *)
Theorem Director_rewrites_scheme_and_host (s : Service) (req : http.Request) :
  let req' := (Director s req).2 in
  match targetMap s !! strings.ToLower (http.Host req) with
  | Some target =>
      url.Scheme (http.URL req') = url.Scheme target
      /\ url.Host (http.URL req') = url.Host target
      /\ url.Path (http.URL req') = url.Path (http.URL req)
      /\ url.RawPath (http.URL req') = url.RawPath (http.URL req)
      /\ url.RawQuery (http.URL req') = url.RawQuery (http.URL req)
      /\ url.ForceQuery (http.URL req') = url.ForceQuery (http.URL req)
      /\ req' = http.withURL
                  (url.withHost (url.Host target)
                     (url.withScheme (url.Scheme target) (http.URL req))) req
  | None => req' = req
  end.
Proof.
  unfold Director. simpl.
  destruct (targetMap s !! strings.ToLower (http.Host req)) as [target|]; simpl;
    repeat split; reflexivity.
Qed.

Lemma set_trace_set_trace (l1 l2 : list (Tid * Event)) (w : World) :
  set_trace l2 (set_trace l1 w) = set_trace l2 w.
Proof. reflexivity. Qed.

Lemma set_trace_id (w : World) : set_trace (trace w) w = w.
Proof. by destruct w. Qed.

Lemma loadTLSConfig_loop (t : Tid) (hosts : list HostConfig)
    (certs : list tls.Certificate) (w : World) :
  foldM
    (fun (certs : list tls.Certificate) (h : HostConfig) =>
       if EnableTLS h && negb (String.eqb (TLSCertFile h) "")
          && negb (String.eqb (TLSKeyFile h) "") then
         match LoadX509KeyPair (TLSCertFile h) (TLSKeyFile h) with
         | None =>
             emitWarningToFrontend t
               (fmt.Sprintf ("Load certificate for %s failed" +:+ newline) [Name h]);;
             mret certs
         | Some cert => mret (certs ++ [cert])%list
         end
       else mret certs)
    certs hosts w
  = ((certs ++ omap loadOf (List.filter eligibleTLS hosts))%list,
     set_trace (trace w ++ map (loadWarning t)
                  (List.filter failsToLoad (List.filter eligibleTLS hosts)))%list w).
Proof.
  revert certs w. induction hosts as [|h hosts IH]; intros certs w.
  - simpl. by rewrite !app_nil_r, set_trace_id.
  - cbn [foldM List.filter]. unfold mbind at 1, M_bind at 1.
    fold (eligibleTLS h).
    destruct (eligibleTLS h) eqn:He.
    + change (LoadX509KeyPair (TLSCertFile h) (TLSKeyFile h)) with (loadOf h).
      assert (Homap : forall l, omap loadOf (h :: l)
                = match loadOf h with Some c => c :: omap loadOf l | None => omap loadOf l end)
        by reflexivity.
      assert (Hfilter : forall l, List.filter failsToLoad (h :: l)
                = if failsToLoad h then h :: List.filter failsToLoad l
                  else List.filter failsToLoad l)
        by reflexivity.
      rewrite Homap, Hfilter. unfold failsToLoad at 1.
      destruct (loadOf h) as [cert|] eqn:Hl.
      * unfold mret at 1, M_ret at 1. rewrite IH.
        by rewrite <- app_assoc.
      * unfold mbind at 1, M_bind at 1. unfold emitWarningToFrontend, emit.
        unfold mret at 1, M_ret at 1. rewrite IH.
        cbn [map trace set_trace]. rewrite set_trace_set_trace.
        rewrite <- app_assoc. reflexivity.
    + unfold mret at 1, M_ret at 1. by rewrite IH.
Qed.

Lemma loadTLSConfig_eq (t : Tid) (w : World) :
  loadTLSConfig config LoadX509KeyPair t w
  = (loadedConfig, set_trace (trace w ++ loadWarnings t)%list w).
Proof.
  unfold loadTLSConfig. unfold mbind at 1, M_bind at 1.
  rewrite loadTLSConfig_loop. reflexivity.
Qed.

Lemma load_count (l : list HostConfig) :
  length (omap loadOf l) + length (List.filter failsToLoad l) = length l.
Proof.
  induction l as [|h l IH]; [reflexivity |].
  change (omap loadOf (h :: l))
    with (match loadOf h with Some c => c :: omap loadOf l | None => omap loadOf l end).
  change (List.filter failsToLoad (h :: l))
    with (if failsToLoad h then h :: List.filter failsToLoad l
          else List.filter failsToLoad l).
  unfold failsToLoad at 1. destruct (loadOf h); cbn [length]; lia.
Qed.

(** C3: among the eligible entries ([EnableTLS] with both paths set), N of
    them, let M fail to load.  [loadTLSConfig] always returns a
    configuration; it holds exactly N - M certificates (those that
    loaded, in the order of the entries), and what it emits is exactly M
    warnings, one naming each host that failed, and nothing else. *)
Theorem loadTLSConfig_skips_failed_pairs (t : Tid) (w : World) :
  let eligible := List.filter eligibleTLS (Hosts config) in
  let failed := List.filter failsToLoad eligible in
  let '(tlsConfig, w') := loadTLSConfig config LoadX509KeyPair t w in
  length (tls.Certificates tlsConfig) = length eligible - length failed
  /\ length failed <= length eligible
  /\ tls.Certificates tlsConfig = omap loadOf eligible
  /\ w' = set_trace (trace w ++ map (loadWarning t) failed)%list w
  /\ length (map (loadWarning t) failed) = length failed.
Proof.
  rewrite loadTLSConfig_eq. cbn [loadedConfig tls.Certificates].
  unfold loadedCertificates, loadWarnings.
  pose proof (load_count (List.filter eligibleTLS (Hosts config))) as Hcount.
  split; [lia |]. split; [lia |]. split; [reflexivity |].
  split; [reflexivity | by rewrite length_map].
Qed.

Lemma Sprintf_badGateway (msg : string) :
  fmt.Sprintf badGatewayFormat [msg] = badGatewayPage msg.
Proof. reflexivity. Qed.

Lemma DetectContentType_badGateway (msg : string) :
  http.DetectContentType (badGatewayPage msg) = "text/html; charset=utf-8".
Proof. reflexivity. Qed.

Lemma badGatewayPage_length (msg : string) :
  (String.length (badGatewayPage msg) =? 0)%nat = false.
Proof. reflexivity. Qed.

(** C9 (as amended): when forwarding a request fails before anything of
    the response has been sent, the handler answers on the writer of that
    request (one that carries no content type, content or transfer
    encoding and no content length of its own) with status 502 and a
    [Content-Type] of [text/html] (with the charset parameter that content
    sniffing adds).  For a request other than [HEAD] the body holds the
    [<h2>Bad Gateway</h2>] heading and the text of the error; for a [HEAD]
    request no body is sent.  The handler touches nothing but that
    writer. *)
Theorem ErrorHandler_answers_bad_gateway
    (w : http.ResponseWriter) (r : http.Request) (err : error) :
  http.wroteHeader w = false ->
  http.wire w = None ->
  http.header w !! "Content-Type" = None ->
  http.nonBlank (http.header w !! "Content-Encoding") = false ->
  http.nonBlank (http.header w !! "Transfer-Encoding") = false ->
  http.header w !! "Content-Length" = None ->
  http.contentLength w = None ->
  let w' := ErrorHandler w r err in
  http.status w' = 502%Z
  /\ http.wire w'
     = Some (<["Content-Type" := ["text/html; charset=utf-8"]]> (http.header w))
  /\ http.header w' = http.header w
  /\ (http.reqMethod w <> "HEAD" ->
      http.body w' = http.body w +:+ badGatewayPage (Error err)
      /\ substringOf "<h2>Bad Gateway</h2>" (http.body w')
      /\ substringOf (Error err) (http.body w'))
  /\ (http.reqMethod w = "HEAD" -> http.body w' = http.body w).
Proof.
  intros Hfresh Hwire Htype Henc Htrans Hlen Hdeclared. unfold ErrorHandler.
  rewrite Sprintf_badGateway.
  unfold http.Write, http.WriteHeader. rewrite Hfresh.
  unfold http.headerGet. rewrite Hlen.
  cbn [http.wroteHeader String.eqb http.status http.contentLength http.withWritten].
  rewrite badGatewayPage_length.
  change (http.bodyAllowedForStatus 502) with true.
  cbn [negb]. rewrite Hdeclared. unfold http.deliver, http.withWritten.
  cbn [http.wire http.snapshot http.header http.status http.body http.reqMethod
        http.contentLength http.written http.wroteHeader].
  rewrite Hwire, Htype, Henc, Htrans. cbn [orb].
  rewrite DetectContentType_badGateway.
  split; [reflexivity |]. split; [reflexivity |]. split; [reflexivity |].
  destruct (String.eqb_spec (http.reqMethod w) "HEAD") as [Hhead | Hother].
  - split; [done | reflexivity].
  - split; [| done]. intros _. split; [reflexivity |]. split.
    + exists (http.body w +:+ "<div style=" +:+ String dquote "text-align: center"
              +:+ String dquote ">"),
        ("<p>" +:+ Error err +:+ "</p>").
      rewrite !append_assoc. reflexivity.
    + exists (http.body w +:+ badGatewayOpening), "</p>".
      unfold badGatewayPage. rewrite !append_assoc. reflexivity.
Qed.

Lemma writeLines_buffer (domains : list string) (data : bytes.Buffer) :
  hostsFile.writeLines data domains = (data +:+ hostsLines domains, None).
Proof.
  revert data. induction domains as [|line rest IH]; intros data.
  - cbn [hostsFile.writeLines hostsLines]. by rewrite append_nil_r.
  - cbn [hostsFile.writeLines hostsLines]. unfold bytes.WriteString.
    rewrite IH. by rewrite append_assoc.
Qed.

(** C10: [WriteHostsFile] opens the hosts file for appending and collects
    the lines [127.0.0.1 <domain> # Auto generated by local proxy] in a
    buffer that it never writes to the file: when the file opens, the
    function returns [nil], the only operations on the file are the
    opening and the closing, and its content is what it was. *)
Theorem WriteHostsFile_leaves_the_file (domains : list string) (fs : hostsFile.FS) :
  hostsFile.WriteHostsFile None domains fs
  = (None,
     {| hostsFile.content := hostsFile.content fs;
        hostsFile.ops :=
          hostsFile.ops fs
          ++ [hostsFile.OpOpen "/etc/hosts" ["O_APPEND"; "O_WRONLY"] 420;
              hostsFile.OpClose] |},
     newline +:+ hostsLines domains).
Proof.
  unfold hostsFile.WriteHostsFile, hostsFile.OpenFile, hostsFile.Close.
  rewrite writeLines_buffer. unfold bytes.NewBufferString. cbn.
  by rewrite <- app_assoc.
Qed.

Lemma doneCount_app (t : Tid) (l1 l2 : list (Tid * Event)) :
  doneCount t (l1 ++ l2) = doneCount t l1 + doneCount t l2.
Proof. unfold doneCount. by rewrite List.filter_app, length_app. Qed.

Lemma doneCount_snoc (t : Tid) (l : list (Tid * Event)) (x : Tid * Event) :
  doneCount t (l ++ [x]) = doneCount t l + (if isDone t x then 1 else 0).
Proof. rewrite doneCount_app. unfold doneCount. simpl. by destruct (isDone t x). Qed.

Lemma doneCount_warnings (t t' : Tid) (hs : list HostConfig) :
  doneCount t (map (loadWarning t') hs) = 0.
Proof. induction hs as [|h hs IH]; [reflexivity | exact IH]. Qed.

Lemma existsb_warnings (p : Tid * Event -> bool) (t : Tid) (hs : list HostConfig) :
  (forall h, p (loadWarning t h) = false) ->
  existsb p (map (loadWarning t) hs) = false.
Proof.
  intros Hp. induction hs as [|h hs IH]; [reflexivity |].
  simpl. by rewrite Hp, IH.
Qed.






(** Closing the cases of an invariant. *)
Ltac use_premises :=
  repeat match goal with
         | H : ?x = ?x -> _ |- _ => specialize (H eq_refl)
         | H : ?P -> _, H' : ?P |- _ => specialize (H H')
         end.

Ltac option_cases :=
  repeat match goal with
         | |- context [_ <$> ?x] => destruct x eqn:?; simpl in *
         | H : context [_ <$> ?x] |- _ => destruct x eqn:?; simpl in *
         | H : is_Some None |- _ => by destruct H
         | H : is_Some ?x, H' : ?x = None |- _ => rewrite H' in H; by destruct H
         end.

Ltac finish :=
  unfold afterServe; simpl in *; repeat case_match;
  repeat split; intros; use_premises; option_cases; simplify_eq/=;
  try done; try lia; try (by eexists).

(** Case analysis on what a step looks at. *)
Ltac split_step H :=
  repeat (match type of H with
          | context [match ?x with _ => _ end] => destruct x eqn:?
          | context [?x ≫= _] => destruct x eqn:?
          | context [_ <$> ?x] => destruct x eqn:?
          end; simplify_eq/=);
  simplify_eq/=.

(** An invariant of the moves holds of every world a schedule reaches. *)
Lemma run_invariant (P : World -> Prop) :
  (forall m w w', P w -> step m w = Some w' -> P w') ->
  forall sched w w', P w -> run sched w = Some w' -> P w'.
Proof.
  intros Hstep. induction sched as [|m sched IH]; intros w w' Hw Hrun.
  - simpl in Hrun. by simplify_eq.
  - simpl in Hrun. destruct (step m w) as [w1|] eqn:Hm; [| done].
    simpl in Hrun. eapply IH; [| exact Hrun]. eapply Hstep; eauto.
Qed.

Lemma run_app (s1 s2 : list Move) (w : World) :
  run (s1 ++ s2) w = w' ← run s1 w; run s2 w'.
Proof.
  revert w. induction s1 as [|m s1 IH]; intros w; [reflexivity |].
  simpl. destruct (step m w) as [w1|]; [apply IH | reflexivity].
Qed.

Lemma barrier_inv_step (m : Move) (w w' : World) :
  barrier_inv w -> step m w = Some w' -> barrier_inv w'.
Proof.
  unfold barrier_inv. destruct w as [s g tr det pm ph pt]. simpl.
  intros (Hwg & Hwait & Hhttp & Htls & HdH & HdT) Hstep.
  destruct m as [|a|a|i a]; simpl in Hstep.
  - unfold StartServer_step in Hstep. simpl in Hstep.
    destruct pm; split_step Hstep; simpl;
      rewrite ?doneCount_snoc; finish.
  - unfold startHttpServer_step, wgDone in Hstep. simpl in Hstep.
    destruct ph; split_step Hstep; simpl;
      rewrite ?doneCount_snoc; finish.
  - unfold startTlsServer_step, wgDone in Hstep. simpl in Hstep.
    rewrite ?loadTLSConfig_eq in Hstep.
    destruct pt; split_step Hstep; simpl; unfold loadWarnings;
      rewrite ?doneCount_snoc, ?doneCount_app, ?doneCount_warnings; finish.
  - unfold task_step in Hstep. simpl in Hstep.
    split_step Hstep. unfold runTask, exec. simpl.
    destruct a; simpl; rewrite ?doneCount_snoc; finish.
Qed.

Ltac trace_simpl :=
  unfold attempted, bound, reported, loadWarnings in *;
  rewrite ?existsb_app, ?existsb_warnings by done.

Ltac inv_cases Hinv :=
  simpl in *; trace_simpl; simpl; rewrite ?orb_false_r;
  first [ exact Hinv
        | unfold afterServe; repeat case_match; simpl in *; destruct_and?;
          simplify_eq/=; repeat split; try done; try lia; try congruence ].

Lemma http_inv_step (s0 : Service) (m : Move) (w w' : World) :
  http_inv s0 w -> step m w = Some w' -> http_inv s0 w'.
Proof.
  unfold http_inv. destruct w as [s g tr det pm ph pt]. simpl.
  intros Hinv Hstep.
  destruct m as [|a|a|i a]; simpl in Hstep.
  - unfold StartServer_step in Hstep. simpl in Hstep.
    destruct pm; split_step Hstep; inv_cases Hinv.
  - unfold startHttpServer_step, wgDone in Hstep. simpl in Hstep.
    destruct ph; split_step Hstep; inv_cases Hinv.
  - unfold startTlsServer_step, wgDone in Hstep. simpl in Hstep.
    rewrite ?loadTLSConfig_eq in Hstep.
    destruct pt; split_step Hstep; inv_cases Hinv.
  - unfold task_step in Hstep. simpl in Hstep.
    split_step Hstep. unfold runTask, exec. simpl.
    destruct a; inv_cases Hinv.
Qed.

Lemma tls_inv_step (s0 : Service) (m : Move) (w w' : World) :
  tls_inv s0 w -> step m w = Some w' -> tls_inv s0 w'.
Proof.
  unfold tls_inv. destruct w as [s g tr det pm ph pt]. simpl.
  intros Hinv Hstep.
  destruct m as [|a|a|i a]; simpl in Hstep.
  - unfold StartServer_step in Hstep. simpl in Hstep.
    destruct pm; split_step Hstep; inv_cases Hinv.
  - unfold startHttpServer_step, wgDone in Hstep. simpl in Hstep.
    destruct ph; split_step Hstep; inv_cases Hinv.
  - unfold startTlsServer_step, wgDone in Hstep. simpl in Hstep.
    rewrite ?loadTLSConfig_eq in Hstep.
    destruct pt; split_step Hstep; inv_cases Hinv.
  - unfold task_step in Hstep. simpl in Hstep.
    split_step Hstep. unfold runTask, exec. simpl.
    destruct a; inv_cases Hinv.
Qed.

Lemma read_inv_step (m : Move) (w w' : World) :
  read_inv w -> step m w = Some w' -> read_inv w'.
Proof.
  intros [Hbar Hread] Hstep. split; [by eapply barrier_inv_step |].
  unfold barrier_inv in Hbar. destruct w as [s g tr det pm ph pt]. simpl in *.
  destruct Hbar as (Hwg & Hwait & Hhttp & Htls & HdH & HdT).
  destruct m as [|a|a|i a]; simpl in Hstep.
  - unfold StartServer_step in Hstep. simpl in Hstep.
    destruct pm; split_step Hstep; finish.
  - unfold startHttpServer_step, wgDone in Hstep. simpl in Hstep.
    destruct ph; split_step Hstep; simpl; intros ->; unfold b2z in *; finish.
  - unfold startTlsServer_step, wgDone in Hstep. simpl in Hstep.
    rewrite ?loadTLSConfig_eq in Hstep.
    destruct pt; split_step Hstep; finish.
  - unfold task_step in Hstep. simpl in Hstep.
    split_step Hstep. unfold runTask, exec. simpl.
    destruct a; finish.
Qed.


Lemma srv_inv_step (m : Move) (w w' : World) :
  srv_inv w -> step m w = Some w' -> srv_inv w'.
Proof.
  unfold srv_inv, wf. destruct w as [s g tr det pm ph pt]. simpl.
  intros ((HwfH & HwfT) & HmH & HmT) Hstep.
  destruct m as [|a|a|i a]; simpl in Hstep.
  - unfold StartServer_step in Hstep. simpl in Hstep.
    destruct pm; split_step Hstep; finish.
  - unfold startHttpServer_step, wgDone in Hstep. simpl in Hstep.
    destruct ph; split_step Hstep; finish.
  - unfold startTlsServer_step, wgDone in Hstep. simpl in Hstep.
    rewrite ?loadTLSConfig_eq in Hstep.
    destruct pt; split_step Hstep; finish.
  - unfold task_step in Hstep. simpl in Hstep.
    split_step Hstep. unfold runTask, exec. simpl.
    destruct a; finish.
Qed.

Lemma serve_inv_step (m : Move) (w w' : World) :
  serve_inv w -> step m w = Some w' -> serve_inv w'.
Proof.
  unfold serve_inv, served. destruct w as [s g tr det pm ph pt]. simpl.
  intros [HsH HsT] Hstep.
  destruct m as [|a|a|i a]; simpl in Hstep.
  - unfold StartServer_step in Hstep. simpl in Hstep.
    destruct pm; split_step Hstep; simpl; trace_simpl; simpl;
      rewrite ?orb_false_r; finish.
  - unfold startHttpServer_step, wgDone in Hstep. simpl in Hstep.
    destruct ph; split_step Hstep; simpl; trace_simpl; simpl;
      rewrite ?orb_false_r; finish.
  - unfold startTlsServer_step, wgDone in Hstep. simpl in Hstep.
    rewrite ?loadTLSConfig_eq in Hstep.
    destruct pt; split_step Hstep; simpl; trace_simpl; simpl;
      rewrite ?orb_false_r; finish.
  - unfold task_step in Hstep. simpl in Hstep.
    split_step Hstep. unfold runTask, exec. simpl.
    destruct a; simpl; trace_simpl; simpl; rewrite ?orb_false_r; finish.
Qed.

Lemma start_inv_calling (s0 : Service) : start_inv s0 (calling s0).
Proof.
  unfold start_inv, read_inv, barrier_inv, http_inv, tls_inv, serve_inv. simpl.
  repeat split; try done.
Qed.

Lemma start_inv_run (s0 : Service) (sched : list Move) (w : World) :
  run sched (calling s0) = Some w -> start_inv s0 w.
Proof.
  apply (run_invariant (start_inv s0)); [| apply start_inv_calling].
  intros m w1 w2 (Hr & Hh & Ht & Hs) Hstep.
  split; [by eapply read_inv_step |].
  split; [by eapply http_inv_step |].
  split; [by eapply tls_inv_step | by eapply serve_inv_step].
Qed.


Lemma srv_inv_run (s0 : Service) (sched : list Move) (w : World) :
  wf s0 -> run sched (calling s0) = Some w -> srv_inv w.
Proof.
  intros Hwf. apply (run_invariant srv_inv); [apply srv_inv_step |].
  by split.
Qed.

(** * [StartServer] *)

Lemma resolved_after_wait (w : World) :
  barrier_inv w -> pastWait (pcMain w) = true ->
  httpResolved (pcHttp w) = true /\ tlsResolved (pcTls w) = true.
Proof.
  intros (Hwg & Hwait & _) Hpast. specialize (Hwait Hpast).
  rewrite Hwait in Hwg.
  destruct (pcMain w); try done;
    destruct (httpResolved (pcHttp w)), (tlsResolved (pcTls w));
    simpl in Hwg; try lia; done.
Qed.

Lemma loadedCertificates_eq (t : Tid) (w : World) :
  tls.Certificates (loadTLSConfig config LoadX509KeyPair t w).1
  = loadedCertificates.
Proof. by rewrite loadTLSConfig_eq. Qed.



Lemma startTlsServer_step_load (a : option error) (w : World) :
  pcTls w = T_load ->
  startTlsServer_step config LoadX509KeyPair a w
  = Some (set_pcTls (T_check (loadedConfig))
            (set_trace (trace w ++ loadWarnings GoTls) w)).
Proof.
  intros Hpc. unfold startTlsServer_step. rewrite Hpc, loadTLSConfig_eq. reflexivity.
Qed.

Lemma serveOnReturn_runs (s0 : Service) :
  exists w,
    run (serveOnReturn
           (bool_decide (loadedCertificates = []))) (calling s0)
    = Some w
    /\ pcMain w = M_returned true /\ pcHttp w = H_serving.
Proof.
  unfold serveOnReturn. rewrite run_app.
  match goal with
  | |- context [run ?pre (calling s0)] =>
      let r := eval lazy -[makeTargetMap ToString] in (run pre (calling s0)) in
      change (run pre (calling s0)) with r
  end.
  cbn [mbind option_bind].
  match goal with
  | |- context [run (MvTls None :: ?rest) ?w1] =>
      change (run (MvTls None :: rest) w1)
        with (startTlsServer_step config LoadX509KeyPair None w1 ≫= run rest)
  end.
  rewrite startTlsServer_step_load by reflexivity.
  cbn [mbind option_bind trace set_trace set_pcTls app].
  assert (Hcerts : tls.Certificates (loadedConfig)
                   = loadedCertificates) by reflexivity.
  generalize dependent (loadedConfig).
  generalize (loadWarnings GoTls).
  intros warnings [mv curves suites certs] Hcerts. simpl in Hcerts. subst certs.
  destruct (loadedCertificates) as [|c cs];
    lazy -[makeTargetMap ToString]; eexists; (split; [reflexivity |]);
    split; reflexivity.
Qed.

(** C6: [StartServer] does not get past [wg.Wait()] before both start-up
    sequences have a determined bind outcome (failed, skipped, or bound
    and about to serve); each sequence signals the barrier exactly once,
    after its bind attempt (or its decision to skip) and before it serves,
    and signalling never panics; once both have signalled the wait is
    released, and [StartServer] returns without waiting for a serve loop:
    there is an execution in which it has returned while the HTTP loop is
    serving. *)
Theorem StartServer_waits_for_both_binds
    (s0 : Service) (sched : list Move) (w : World) :
  run sched (calling s0) = Some w ->
  (pastWait (pcMain w) = true ->
   httpResolved (pcHttp w) = true /\ tlsResolved (pcTls w) = true)
  /\ doneCount GoHttp (trace w) = (if httpResolved (pcHttp w) then 1 else 0)
  /\ doneCount GoTls (trace w) = (if tlsResolved (pcTls w) then 1 else 0)
  /\ (httpResolved (pcHttp w) = true -> attempted GoHttp (trace w) = true)
  /\ (tlsResolved (pcTls w) = true ->
      attempted GoTls (trace w) = true \/ pcTls w = T_skipped)
  /\ (served GoHttp (trace w) = true -> httpResolved (pcHttp w) = true)
  /\ (served GoTls (trace w) = true -> tlsResolved (pcTls w) = true)
  /\ (forall a, pcHttp w = H_fail_done \/ pcHttp w = H_ok_done ->
      is_Some (startHttpServer_step config a w))
  /\ (forall a, pcTls w = T_skip_done \/ pcTls w = T_fail_done \/ pcTls w = T_ok_done ->
      is_Some (startTlsServer_step config LoadX509KeyPair a w))
  /\ (pcMain w = M_wait ->
      httpResolved (pcHttp w) = true -> tlsResolved (pcTls w) = true ->
      StartServer_step config w = Some (set_pcMain M_read_http w))
  /\ (exists sched' w', run sched' (calling s0) = Some w'
        /\ pcMain w' = M_returned true /\ pcHttp w' = H_serving).
Proof.
  intros Hrun.
  pose proof (start_inv_run _ _ _ Hrun) as ([Hbar _] & Hhttp & Htls & HsH & HsT).
  pose proof Hbar as (Hwg & Hwait & HbH & HbT & HdH & HdT).
  split; [by apply resolved_after_wait |].
  split; [destruct (httpResolved (pcHttp w)); simpl in HdH; lia |].
  split; [destruct (tlsResolved (pcTls w)); simpl in HdT; lia |].
  split.
  { unfold http_inv in Hhttp. destruct (pcHttp w); try done; by destruct_and?. }
  split.
  { unfold tls_inv in Htls. destruct (pcTls w); try done; destruct_and?; auto. }
  split; [done |]. split; [done |].
  assert (HaddedH : pcHttp w <> H_none -> added (pcMain w) = true).
  { intros Hne. destruct (pcMain w); try done; by destruct Hne; apply HbH. }
  assert (HaddedT : pcTls w <> T_none -> added (pcMain w) = true).
  { intros Hne. destruct (pcMain w); try done; by destruct Hne; apply HbT. }
  split.
  { intros a Hpc. unfold startHttpServer_step, wgDone.
    assert (0 < wg w)%Z as Hpos.
    { rewrite Hwg, HaddedH by (destruct Hpc as [-> | ->]; done).
      destruct Hpc as [-> | ->]; destruct (tlsResolved (pcTls w)); simpl; lia. }
    apply Z.ltb_lt in Hpos. rewrite Hpos. destruct Hpc as [-> | ->]; by eexists. }
  split.
  { intros a Hpc. unfold startTlsServer_step, wgDone.
    assert (0 < wg w)%Z as Hpos.
    { rewrite Hwg, HaddedT by (destruct Hpc as [-> | [-> | ->]]; done).
      destruct Hpc as [-> | [-> | ->]]; destruct (httpResolved (pcHttp w)); simpl; lia. }
    apply Z.ltb_lt in Hpos. rewrite Hpos. destruct Hpc as [-> | [-> | ->]]; by eexists. }
  split.
  { intros Hpc HrH HrT. unfold StartServer_step. rewrite Hpc.
    rewrite Hwg, Hpc, HrH, HrT. reflexivity. }
  destruct (serveOnReturn_runs s0) as (w' & Hrun' & Hret & Hserving).
  by eexists _, w'.
Qed.

Lemma ShutdownServer_eq (closeHttp closeTls : option error) (w : World) :
  exec (ShutdownServer closeHttp closeTls) w
  = set_detached (detached w ++ [removeHostsFileRecord])
      (set_trace
         (trace w ++ shutdownEvents HTTP closeHttp (httpServer (svc w))
                  ++ shutdownEvents TLS closeTls (tlsServer (svc w))
                  ++ [(GoMain, EvGo removeHostsFileRecord)])
         (set_svc (stopped (svc w)) w)).
Proof.
  destruct w as [[fh ft tm [[a1 a2 a3 a4 a5 a6 [|]]|] [[b1 b2 b3 b4 b5 b6 [|]]|] px]
                   g tr det pm ph pt];
    destruct closeHttp, closeTls; cbv -[app Error];
    rewrite <- ?app_assoc; reflexivity.
Qed.

(** C8 (as amended): on a service on which neither server was ever
    created, [ShutdownServer] shuts nothing down, changes no flag and
    reports nothing itself; it still starts the detached de-registration of
    the hosts file, and the notification channel receives a report exactly
    when that de-registration fails. *)
Theorem ShutdownServer_without_servers
    (closeHttp closeTls : option error) (w : World) :
  httpServer (svc w) = None ->
  tlsServer (svc w) = None ->
  exec (ShutdownServer closeHttp closeTls) w
  = set_detached (detached w ++ [removeHostsFileRecord])
      (set_trace (trace w ++ [(GoMain, EvGo removeHostsFileRecord)]) w)
  /\ forall (answer : option error) (w' : World),
       trace (exec (runTask answer removeHostsFileRecord) w')
       = trace w'
         ++ (GoTask, EvHostsFile removeHostsFileRecord)
            :: match answer with
               | Some err => [(GoTask, EvError (Error err))]
               | None => []
               end.
Proof.
  intros Hh Ht. split.
  - rewrite ShutdownServer_eq, Hh, Ht. simpl.
    destruct w as [[fh ft tm sh st px] g tr det pm ph pt]. simpl in *.
    by subst.
  - intros [err|] w'; unfold runTask, exec; simpl;
      rewrite <- ?app_assoc; reflexivity.
Qed.

Lemma shut_inv_step (m : Move) (w w' : World) :
  isMain m = false ->
  shut_inv w -> step m w = Some w' -> shut_inv w'.
Proof.
  unfold shut_inv, isShut, wf. destruct w as [s g tr det pm ph pt]. simpl.
  intros Hm (HsH & HsT & HshH & HshT & HwfH & HwfT) Hstep.
  destruct m as [|a|a|i a]; [done | | |]; simpl in Hstep.
  - unfold startHttpServer_step, wgDone in Hstep.
    destruct ph; try done; simpl in Hstep;
      destruct (httpServer s) as [srv|] eqn:Hsrv; simpl in Hstep;
      try (destruct (HshH srv eq_refl) as [Hin Htr]; rewrite ?Hin in Hstep);
      simplify_eq/=; unfold afterServe; repeat case_match;
      repeat split; intros; rewrite ?Hsrv in *; simplify_eq/=; try done; eauto;
      try (edestruct HshH as [? ?]; [eassumption |]; congruence);
      try (edestruct HshT as [? ?]; [eassumption |]; congruence);
      try (apply HwfH; congruence); try (apply HwfT; congruence).
  - unfold startTlsServer_step, wgDone in Hstep.
    destruct pt; try done; simpl in Hstep;
      destruct (tlsServer s) as [srv|] eqn:Hsrv; simpl in Hstep;
      try (destruct (HshT srv eq_refl) as [Hin Htr]; rewrite ?Hin in Hstep);
      simplify_eq/=; unfold afterServe; repeat case_match;
      repeat split; intros; rewrite ?Hsrv in *; simplify_eq/=; try done; eauto;
      try (edestruct HshH as [? ?]; [eassumption |]; congruence);
      try (edestruct HshT as [? ?]; [eassumption |]; congruence);
      try (apply HwfH; congruence); try (apply HwfT; congruence).
  - unfold task_step in Hstep. simpl in Hstep.
    destruct (det !! i) eqn:Hi; simplify_eq/=.
    unfold runTask, exec. destruct a; simpl; repeat split; eauto;
      try (edestruct HshH as [? ?]; [eassumption |]; congruence);
      try (edestruct HshT as [? ?]; [eassumption |]; congruence).
Qed.

Lemma shut_inv_run (bg : list Move) (w w' : World) :
  forallb (fun m => negb (isMain m)) bg = true ->
  shut_inv w -> run bg w = Some w' -> shut_inv w'.
Proof.
  revert w. induction bg as [|m bg IH]; intros w Hbg Hinv Hrun.
  - simpl in Hrun. by simplify_eq.
  - simpl in Hbg. apply andb_true_iff in Hbg as [Hm Hbg].
    simpl in Hrun.
    destruct (step m w) as [w1|] eqn:Hstep; [| done].
    simpl in Hrun. eapply IH; [done | | exact Hrun].
    eapply shut_inv_step; [| exact Hinv | exact Hstep].
    by destruct (isMain m).
Qed.

Lemma shut_inv_ShutdownServer (closeHttp closeTls : option error) (w : World) :
  httpSettled (pcHttp w) = true -> tlsSettled (pcTls w) = true -> wf (svc w) ->
  shut_inv (exec (ShutdownServer closeHttp closeTls) w).
Proof.
  intros HsH HsT [HwfH HwfT]. rewrite ShutdownServer_eq.
  unfold shut_inv, isShut, wf, stopped, shutDown. simpl.
  repeat split; try done; intros;
    destruct (httpServer (svc w)) eqn:?, (tlsServer (svc w)) eqn:?;
    simplify_eq/=; try done; auto.
Qed.

Lemma settled_when_quiet (w : World) :
  barrier_inv w -> quiet (pcMain w) = true ->
  httpSettled (pcHttp w) = true /\ tlsSettled (pcTls w) = true.
Proof.
  intros Hbar Hq. destruct (pcMain w) eqn:Hpc; try done.
  - destruct Hbar as (_ & _ & HbH & HbT & _). rewrite Hpc in *.
    by rewrite HbH, HbT.
  - destruct (resolved_after_wait w Hbar) as [HrH HrT]; [by rewrite Hpc |].
    unfold httpSettled, tlsSettled. rewrite HrH, HrT.
    by destruct (pcHttp w), (pcTls w).
Qed.

(** C7 (as amended): let [ShutdownServer] be called twice in a row on a
    service on which no [StartServer] is under way, the goroutines of the
    service moving as they like in between.  The second call finds nothing
    to close: whatever closing would answer, its two shutdowns report no
    error, and after it both flags are false.  The only report it can
    cause is that of the hosts-file de-registration, which it starts
    again. *)
Theorem ShutdownServer_twice
    (s0 : Service) (sched bg : list Move) (w0 w1 : World)
    (closeHttp closeTls closeHttp' closeTls' : option error) :
  wf s0 ->
  run sched (calling s0) = Some w0 ->
  quiet (pcMain w0) = true ->
  forallb (fun m => negb (isMain m)) bg = true ->
  run bg (exec (ShutdownServer closeHttp closeTls) w0) = Some w1 ->
  let w2 := exec (ShutdownServer closeHttp' closeTls') w1 in
  httpServerRunning (svc w2) = false
  /\ tlsServerRunning (svc w2) = false
  /\ trace w2
     = trace w1
       ++ match httpServer (svc w1) with
          | Some _ => [(GoMain, EvShutdown HTTP)]
          | None => []
          end
       ++ match tlsServer (svc w1) with
          | Some _ => [(GoMain, EvShutdown TLS)]
          | None => []
          end
       ++ [(GoMain, EvGo removeHostsFileRecord)]
  /\ detached w2 = detached w1 ++ [removeHostsFileRecord].
Proof.
  intros Hwf Hrun Hquiet Hbg Hrun1 w2. subst w2.
  pose proof Hrun as Hstart. apply start_inv_run in Hstart as ([Hbar _] & _).
  pose proof Hrun as Hsrv. apply srv_inv_run in Hsrv as (Hwf0 & _); [| exact Hwf].
  destruct (settled_when_quiet w0 Hbar Hquiet) as [HsH HsT].
  pose proof (shut_inv_ShutdownServer closeHttp closeTls w0 HsH HsT Hwf0) as Hinv.
  pose proof (shut_inv_run bg _ _ Hbg Hinv Hrun1)
    as (_ & _ & HshH & HshT & HwfH & HwfT).
  rewrite ShutdownServer_eq. unfold stopped, shutdownEvents. simpl.
  unfold isShut in *.
  destruct (httpServer (svc w1)) as [sh|] eqn:Hh;
    destruct (tlsServer (svc w1)) as [st|] eqn:Ht;
    try (destruct (HshH sh eq_refl) as [_ ->]);
    try (destruct (HshT st eq_refl) as [_ ->]);
    simpl; repeat split; auto.
Qed.

Lemma lowerByte_not_capital (c : ascii) : inRange "A" "Z" (strings.lowerByte c) = false.
Proof.
  destruct c as [b0 b1 b2 b3 b4 b5 b6 b7].
  destruct b0, b1, b2, b3, b4, b5, b6, b7; reflexivity.
Qed.

Lemma lowerASCII_no_capital (s : string) : hasCapital (strings.lowerASCII s) = false.
Proof.
  induction s as [|c s IH]; [reflexivity |].
  cbn [strings.lowerASCII hasCapital]. by rewrite lowerByte_not_capital, IH.
Qed.

(** Entries that register nothing under [k] leave what is registered
    under [k]. *)
Lemma makeTargetMap_fold_lookup (hosts : list HostConfig) (m : gmap string url.URL)
    (k : string) :
  (forall h, h ∈ hosts -> Name h = k -> ~ registers h) ->
  foldl (fun (m : gmap string url.URL) (h : HostConfig) =>
           if negb (String.eqb (DefaultTarget h) "") then
             match url.Parse (DefaultTarget h) with
             | Some u => <[Name h := u]> m
             | None => m
             end
           else m) m hosts !! k
  = m !! k.
Proof.
  revert m. induction hosts as [|h hosts IH]; intros m Hno; [reflexivity |].
  cbn [foldl]. rewrite IH.
  - destruct (String.eqb_spec (DefaultTarget h) "") as [Hempty | Hfull]; [reflexivity |].
    cbn [negb]. destruct (url.Parse (DefaultTarget h)) as [u|] eqn:Hu; [| reflexivity].
    apply lookup_insert_ne. intros Hk.
    apply (Hno h); [by apply list_elem_of_here | done |].
    split; [done | by rewrite Hu].
  - intros h' Hh'. apply Hno. by apply list_elem_of_further.
Qed.

(** X1: when several entries carry the same name, the registry holds the
    target of the last of them that registers. *)
Theorem makeTargetMap_last_entry_wins
    (s : Service) (before after : list HostConfig) (h : HostConfig) (u : url.URL) :
  Hosts config = before ++ h :: after ->
  DefaultTarget h <> "" ->
  url.Parse (DefaultTarget h) = Some u ->
  (forall h', h' ∈ after -> Name h' = Name h -> ~ registers h') ->
  targetMap (makeTargetMap config s) !! Name h = Some u.
Proof.
  intros Hhosts Hfull Hu Hlast. unfold makeTargetMap. cbn [targetMap set_targetMap].
  rewrite Hhosts, foldl_app. cbn [foldl].
  rewrite makeTargetMap_fold_lookup by exact Hlast.
  apply String.eqb_neq in Hfull. rewrite Hfull, Hu. cbn [negb].
  by rewrite lookup_insert_eq.
Qed.

(** X3: a request whose host is ASCII is only ever routed by an entry whose
    name holds no capital letter: the [Director] looks the lowercased host
    up among names that are registered as they are written. *)
Theorem Director_routes_by_lowercase_names
    (s : Service) (req : http.Request) (target : url.URL) :
  strings.isASCII (http.Host req) = true ->
  targetMap (makeTargetMap config s) !! strings.ToLower (http.Host req) = Some target ->
  exists h, h ∈ Hosts config
            /\ Name h = strings.ToLower (http.Host req)
            /\ hasCapital (Name h) = false
            /\ registers h.
Proof.
  intros Hascii Hlook.
  assert (Hdom : strings.ToLower (http.Host req)
                 ∈ dom (targetMap (makeTargetMap config s))).
  { apply elem_of_dom. by eexists. }
  apply makeTargetMap_keys in Hdom as (h & Hh & Hname & Hreg).
  exists h. split; [done |]. split; [done |]. split; [| done].
  rewrite <- Hname. unfold strings.ToLower. rewrite Hascii.
  apply lowerASCII_no_capital.
Qed.

Lemma registry_inv_step (s0 : Service) (m : Move) (w w' : World) :
  registry_inv s0 w -> step m w = Some w' -> registry_inv s0 w'.
Proof.
  unfold registry_inv. destruct w as [s g tr det pm ph pt]. simpl.
  intros Hinv Hstep.
  destruct m as [|a|a|i a]; simpl in Hstep.
  - unfold StartServer_step in Hstep. simpl in Hstep.
    destruct pm; split_step Hstep; simpl in *; try done.
  - unfold startHttpServer_step, wgDone in Hstep. simpl in Hstep.
    destruct ph; split_step Hstep; simpl in *; try done.
  - unfold startTlsServer_step, wgDone in Hstep. simpl in Hstep.
    rewrite ?loadTLSConfig_eq in Hstep.
    destruct pt; split_step Hstep; simpl in *; try done.
  - unfold task_step in Hstep. simpl in Hstep.
    split_step Hstep. unfold runTask, exec. simpl.
    destruct a; simpl in *; try done.
Qed.

Lemma Director_targetMap (s s' : Service) (req : http.Request) :
  targetMap s = targetMap s' -> Director s req = Director s' req.
Proof. intros Heq. unfold Director. by rewrite Heq. Qed.

(** X2: once [StartServer] has called [makeTargetMap], the registry is the
    one built from the configuration alone, whatever the service held
    before and whatever the goroutines have done since; [ShutdownServer]
    keeps it.  So the [Director] routes every request by the
    configuration. *)
Theorem StartServer_registry_from_config
    (s0 : Service) (sched : list Move) (w : World)
    (closeHttp closeTls : option error) (req : http.Request) :
  run sched (calling s0) = Some w ->
  built (pcMain w) = true ->
  targetMap (svc w) = targetMap (makeTargetMap config newService)
  /\ Director (svc w) req = Director (makeTargetMap config newService) req
  /\ targetMap (svc (exec (ShutdownServer closeHttp closeTls) w)) = targetMap (svc w).
Proof.
  intros Hrun Hbuilt.
  assert (Hinv : registry_inv s0 w).
  { eapply run_invariant with (P := registry_inv s0); [| | exact Hrun].
    - intros m w1 w2. apply registry_inv_step.
    - reflexivity. }
  unfold registry_inv in Hinv. rewrite Hbuilt in Hinv.
  split; [done |]. split; [by apply Director_targetMap |].
  by rewrite ShutdownServer_eq.
Qed.

Lemma reportCount_app (t : Tid) (l1 l2 : list (Tid * Event)) :
  reportCount t (l1 ++ l2) = reportCount t l1 + reportCount t l2.
Proof. unfold reportCount. by rewrite List.filter_app, length_app. Qed.

Lemma reportCount_snoc (t : Tid) (l : list (Tid * Event)) (x : Tid * Event) :
  reportCount t (l ++ [x]) = reportCount t l + (if isReport t x then 1 else 0).
Proof. rewrite reportCount_app. unfold reportCount. simpl. by destruct (isReport t x). Qed.

Lemma reportCount_cons (t : Tid) (x : Tid * Event) (l : list (Tid * Event)) :
  reportCount t (x :: l) = (if isReport t x then 1 else 0) + reportCount t l.
Proof. unfold reportCount. simpl. by destruct (isReport t x). Qed.

Lemma reportCount_warnings (t t' : Tid) (hs : list HostConfig) :
  reportCount t (map (loadWarning t') hs) = 0.
Proof. induction hs as [|h hs IH]; [reflexivity | exact IH]. Qed.








Lemma reportCount_loadWarnings (t t' : Tid) :
  reportCount t (loadWarnings t') = 0.
Proof. apply reportCount_warnings. Qed.

(** X5: the two servers fail independently.  When a certificate loads and
    the HTTP bind fails, the TLS server can still bind and serve:
    [StartServer] then returns true with only the TLS flag set, the HTTP
    failure reported, and the registration of the hosts file still
    pending. *)
Theorem StartServer_http_failure_leaves_tls (s0 : Service) (e : error) :
  tls.Certificates (loadTLSConfig config LoadX509KeyPair GoTls (calling s0)).1 <> [] ->
  httpServerRunning s0 = false ->
  exists w,
    run (httpFailsTlsServes e) (calling s0) = Some w
    /\ pcMain w = M_returned true
    /\ pcHttp w = H_failed
    /\ pcTls w = T_serving
    /\ httpServerRunning (svc w) = false
    /\ tlsServerRunning (svc w) = true
    /\ reportCount GoHttp (trace w) = 1
    /\ reportCount GoTls (trace w) = 0
    /\ detached w = [addHostsFileRecord].
Proof.
  rewrite loadedCertificates_eq. intros Hcerts Hstopped.
  destruct s0 as [fh ft tm sh st px]. simpl in Hstopped. subst fh.
  unfold httpFailsTlsServes. rewrite run_app.
  match goal with
  | |- context [run ?pre (calling ?s)] =>
      let r := eval lazy -[makeTargetMap ToString Error app] in (run pre (calling s)) in
      change (run pre (calling s)) with r
  end.
  cbn [mbind option_bind].
  match goal with
  | |- context [run (MvTls None :: ?rest) ?w1] =>
      change (run (MvTls None :: rest) w1)
        with (startTlsServer_step config LoadX509KeyPair None w1 ≫= run rest)
  end.
  rewrite startTlsServer_step_load by reflexivity.
  cbn [mbind option_bind trace set_trace set_pcTls app].
  assert (Hc : tls.Certificates (loadedConfig)
               = loadedCertificates) by reflexivity.
  generalize dependent (loadedConfig).
  pose proof (reportCount_loadWarnings GoHttp GoTls) as HwH.
  pose proof (reportCount_loadWarnings GoTls GoTls) as HwT.
  generalize dependent (loadWarnings GoTls).
  intros warnings HwH HwT [mv curves suites certs] Hc. simpl in Hc. subst certs.
  destruct (loadedCertificates) as [|c cs]; [done |].
  eexists. split; [lazy -[makeTargetMap ToString Error reportCount app]; reflexivity |].
  cbn [pcMain pcHttp pcTls svc trace detached httpServerRunning tlsServerRunning].
  repeat (split; [reflexivity |]).
  repeat (rewrite reportCount_snoc || rewrite reportCount_app).
  rewrite !reportCount_cons, HwH, HwT. repeat split; reflexivity.
Qed.

Ltac same_server Hsrv :=
  first [ exact Hsrv
        | by exists false
        | let b := fresh "b" in
          let Hb := fresh "Hb" in
          match type of Hsrv with ex _ => idtac end;
          destruct Hsrv as [b Hb]; rewrite Hb in *; simplify_eq/=;
          first [ by exists true | by exists false | by exists b ] ].

Lemma servers_inv_step (s0 : Service) (m : Move) (w w' : World) :
  servers_inv s0 w -> step m w = Some w' -> servers_inv s0 w'.
Proof.
  unfold servers_inv. destruct w as [s g tr det pm ph pt]. simpl.
  intros (Hhttp & Htls & Hpc) Hstep.
  destruct m as [|a|a|i a]; simpl in Hstep.
  - unfold StartServer_step in Hstep. simpl in Hstep.
    destruct pm; split_step Hstep; simpl in *; try done.
  - unfold startHttpServer_step, wgDone in Hstep. simpl in Hstep.
    destruct ph; split_step Hstep; unfold afterServe;
      try (destruct a as [e|]; [destruct (isErrServerClosed e) |]); simpl in *;
      (split; [same_server Hhttp | by split]).
  - unfold startTlsServer_step, wgDone in Hstep. simpl in Hstep.
    rewrite ?loadTLSConfig_eq in Hstep.
    destruct pt; split_step Hstep; unfold afterServe;
      try (destruct a as [e|]; [destruct (isErrServerClosed e) |]); simpl in *;
      (split; [exact Hhttp |]).
    all: try match type of Htls with _ /\ _ => destruct Htls as [Hcerts Htls] end.
    all: try match type of Hpc with _ /\ _ => destruct Hpc as [Hc Hcerts] end.
    all: try match type of Hpc with _ = _ => rename Hpc into Hc end.
    all: try subst tlsConfig.
    all: repeat split; try done; try same_server Htls.
    all: intros Hnil;
      match goal with
      | Hl : (length _ =? 0)%nat = false |- _ => by rewrite Hnil in Hl
      end.
  - unfold task_step in Hstep. simpl in Hstep.
    split_step Hstep. unfold runTask, exec. simpl.
    destruct a; simpl in *; done.
Qed.

(** X9: the servers the goroutines of [StartServer] bind and serve are
    the ones they have made themselves, whatever the service held before:
    the HTTP server on the configured port without TLS, the TLS server on
    the configured HTTPS port with the configuration [loadTLSConfig]
    returns, which then holds a certificate; neither is shutting down.
    Until a goroutine makes its server (or when the TLS bind is skipped),
    the service keeps the server it had. *)
Theorem StartServer_makes_fresh_servers
    (s0 : Service) (sched : list Move) (w : World) :
  run sched (calling s0) = Some w ->
  (httpMade (pcHttp w) = true ->
   exists b, httpServer (svc w)
             = Some (http.withTracking b (newServer (HttpPort (Setting config)) None)))
  /\ (httpMade (pcHttp w) = false -> httpServer (svc w) = httpServer s0)
  /\ (tlsMade (pcTls w) = true ->
      tls.Certificates (loadTLSConfig config LoadX509KeyPair GoTls w).1 <> []
      /\ exists b, tlsServer (svc w)
                   = Some (http.withTracking b
                             (newServer (HttpsPort (Setting config))
                                (Some (loadTLSConfig config LoadX509KeyPair GoTls w).1))))
  /\ (tlsMade (pcTls w) = false -> tlsServer (svc w) = tlsServer s0)
  /\ (forall srv, httpMade (pcHttp w) = true -> httpServer (svc w) = Some srv ->
      http.inShutdown srv = false)
  /\ (forall srv, tlsMade (pcTls w) = true -> tlsServer (svc w) = Some srv ->
      http.inShutdown srv = false).
Proof.
  intros Hrun. rewrite loadTLSConfig_eq. cbn [fst].
  assert (Hinv : servers_inv s0 w).
  { eapply run_invariant with (P := servers_inv s0); [| | exact Hrun].
    - intros m w1 w2. apply servers_inv_step.
    - by repeat split. }
  destruct Hinv as (Hhttp & Htls & _).
  split; [intros Hm; by rewrite Hm in Hhttp |].
  split; [intros Hm; by rewrite Hm in Hhttp |].
  split; [intros Hm; by rewrite Hm in Htls |].
  split; [intros Hm; by rewrite Hm in Htls |].
  split; intros srv Hm Hsrv.
  - rewrite Hm in Hhttp. destruct Hhttp as [b Hb].
    rewrite Hb in Hsrv. by simplify_eq/=.
  - rewrite Hm in Htls. destruct Htls as [_ [b Hb]].
    rewrite Hb in Hsrv. by simplify_eq/=.
Qed.

(** ** The service after [ShutdownServer] *)

Lemma flags_down_step (m : Move) (w w' : World) :
  isMain m = false ->
  httpSettled (pcHttp w) = true -> tlsSettled (pcTls w) = true ->
  httpServerRunning (svc w) = false /\ tlsServerRunning (svc w) = false ->
  step m w = Some w' ->
  httpServerRunning (svc w') = false /\ tlsServerRunning (svc w') = false.
Proof.
  destruct w as [s g tr det pm ph pt]. simpl.
  intros Hm HsH HsT [HfH HfT] Hstep.
  destruct m as [|a|a|i a]; [done | | |]; simpl in Hstep.
  - unfold startHttpServer_step, wgDone in Hstep. simpl in Hstep.
    destruct ph; try done; split_step Hstep; simpl; done.
  - unfold startTlsServer_step, wgDone in Hstep. simpl in Hstep.
    destruct pt; try done; split_step Hstep; simpl; done.
  - unfold task_step in Hstep. simpl in Hstep.
    split_step Hstep. unfold runTask, exec. destruct a; simpl; done.
Qed.

Lemma flags_down_run (bg : list Move) (w w' : World) :
  forallb (fun m => negb (isMain m)) bg = true ->
  shut_inv w ->
  httpServerRunning (svc w) = false /\ tlsServerRunning (svc w) = false ->
  run bg w = Some w' ->
  shut_inv w'
  /\ httpServerRunning (svc w') = false /\ tlsServerRunning (svc w') = false.
Proof.
  revert w. induction bg as [|m bg IH]; intros w Hbg Hinv Hflags Hrun.
  - simpl in Hrun. by simplify_eq.
  - simpl in Hbg. apply andb_true_iff in Hbg as [Hm Hbg].
    simpl in Hrun.
    destruct (step m w) as [w1|] eqn:Hstep; [| done].
    simpl in Hrun. apply negb_true_iff in Hm.
    eapply IH; [done | | | exact Hrun].
    + eapply shut_inv_step; [exact Hm | exact Hinv | exact Hstep].
    + destruct Hinv as (HsH & HsT & _).
      eapply flags_down_step; [exact Hm | exact HsH | exact HsT | exact Hflags | exact Hstep].
Qed.

(** X6: after [ShutdownServer], called while no [StartServer] is under
    way, the service is stopped and stays so whatever its goroutines do
    afterwards: [GetServerStatus] answers false for both servers, and each
    server that exists is shutting down and serves on no listener. *)
Theorem ShutdownServer_stays_stopped
    (s0 : Service) (sched bg : list Move) (w0 w1 : World)
    (closeHttp closeTls : option error) :
  wf s0 ->
  run sched (calling s0) = Some w0 ->
  quiet (pcMain w0) = true ->
  forallb (fun m => negb (isMain m)) bg = true ->
  run bg (exec (ShutdownServer closeHttp closeTls) w0) = Some w1 ->
  GetServerStatus (svc w1) = <["HTTP" := false]> (<["TLS" := false]> ∅)
  /\ isShut (httpServer (svc w1))
  /\ isShut (tlsServer (svc w1)).
Proof.
  intros Hwf Hrun Hquiet Hbg Hrun1.
  pose proof Hrun as Hstart. apply start_inv_run in Hstart as ([Hbar _] & _).
  pose proof Hrun as Hsrv. apply srv_inv_run in Hsrv as (Hwf0 & _); [| exact Hwf].
  destruct (settled_when_quiet w0 Hbar Hquiet) as [HsH HsT].
  pose proof (shut_inv_ShutdownServer closeHttp closeTls w0 HsH HsT Hwf0) as Hinv.
  assert (Hflags : httpServerRunning (svc (exec (ShutdownServer closeHttp closeTls) w0)) = false
                   /\ tlsServerRunning (svc (exec (ShutdownServer closeHttp closeTls) w0)) = false).
  { rewrite ShutdownServer_eq. unfold stopped. simpl. destruct Hwf0 as [HwH HwT].
    destruct (httpServer (svc w0)), (tlsServer (svc w0)); auto. }
  destruct (flags_down_run bg _ _ Hbg Hinv Hflags Hrun1)
    as ((_ & _ & HshH & HshT & _) & HfH & HfT).
  unfold GetServerStatus. by rewrite HfH, HfT.
Qed.

(** X7: on a writer whose header has already been sent, the
    [ErrorHandler] cannot answer 502: the status and the header block stay
    what they were.  The page reaches the body only when the status allows
    a body, a declared [Content-Length] leaves room for the page and the
    request is not a [HEAD] request; otherwise the page is dropped. *)
Theorem ErrorHandler_after_header_sent
    (w : http.ResponseWriter) (r : http.Request) (err : error)
    (sent : gmap string (list string)) :
  http.wroteHeader w = true ->
  http.wire w = Some sent ->
  let w' := ErrorHandler w r err in
  let page := badGatewayPage (Error err) in
  http.status w' = http.status w
  /\ http.wire w' = Some sent
  /\ http.snapshot w' = http.snapshot w
  /\ http.header w' = http.header w
  /\ http.body w'
     = if takes w page && negb (String.eqb (http.reqMethod w) "HEAD")
       then http.body w +:+ page
       else http.body w.
Proof.
  intros Hsent Hwire. unfold ErrorHandler. rewrite Sprintf_badGateway.
  unfold http.Write, http.WriteHeader, takes. rewrite Hsent. cbn zeta.
  rewrite Hsent, badGatewayPage_length.
  destruct (http.bodyAllowedForStatus (http.status w)); cbn [negb andb];
    [| by repeat split].
  unfold http.withWritten, http.deliver.
  cbn [http.contentLength http.written http.wire http.status http.snapshot
        http.header http.body http.reqMethod].
  destruct (http.contentLength w) as [declared|].
  - rewrite Z.ltb_antisym.
    destruct (http.written w + Z.of_nat (String.length (badGatewayPage (Error err)))
              <=? declared)%Z;
      cbn [negb andb http.contentLength http.written http.wire http.status
             http.snapshot http.header http.body http.reqMethod];
      rewrite ?Hwire; repeat split;
      by destruct (String.eqb (http.reqMethod w) "HEAD").
  - cbn [negb andb http.contentLength http.written http.wire http.status
           http.snapshot http.header http.body http.reqMethod].
    rewrite Hwire. repeat split.
    by destruct (String.eqb (http.reqMethod w) "HEAD").
Qed.

(** X8: [WriteHostsFile] returns the error of opening the hosts file, if
    any; when the opening fails it stops there: it builds no buffer and
    does not close.  In no case does it write: the content of the file is
    what it was. *)
Theorem WriteHostsFile_never_writes
    (openAnswer : option error) (domains : list string) (fs : hostsFile.FS) :
  let '(err, fs', data) := hostsFile.WriteHostsFile openAnswer domains fs in
  err = openAnswer
  /\ hostsFile.content fs' = hostsFile.content fs
  /\ hostsFile.ops fs'
     = hostsFile.ops fs
       ++ hostsFile.OpOpen "/etc/hosts" ["O_APPEND"; "O_WRONLY"] 420
          :: match openAnswer with
             | Some _ => []
             | None => [hostsFile.OpClose]
             end
  /\ data = match openAnswer with
            | Some _ => ""
            | None => newline +:+ hostsLines domains
            end.
Proof.
  unfold hostsFile.WriteHostsFile, hostsFile.OpenFile, hostsFile.Close.
  destruct openAnswer as [e|].
  - by repeat split.
  - rewrite writeLines_buffer. unfold bytes.NewBufferString. cbn.
    rewrite <- app_assoc. by repeat split.
Qed.

End Verification.

(* ================================================================== *)
(** * The stored configuration: packages [utils] and [userData] *)

Lemma Stat_info (fault : option error) (path : string) (fs : os.FS) :
  (exists d, os.Stat fault path fs = os.StatInfo d) <-> fault = None /\ present path fs.
Proof.
  unfold os.Stat, present. destruct fault as [e|].
  - split; [by intros [d Hd] | by intros [Hf _]].
  - case_bool_decide as Hdir.
    + split; [intros _; split; [done | by left] | by eexists].
    + destruct (os.files fs !! path) as [data|] eqn:Hfile.
      * split; [intros _; split; [done | right; by eexists] | by eexists].
      * split; [by intros [d Hd] |].
        intros [_ [Hd | Hf]]; [done | by destruct Hf].
Qed.

(** X10: [FileExists] answers true exactly when [os.Stat] succeeds, so a
    path that exists and cannot be examined counts as absent; [IsDir]
    answers true exactly for a directory that can be examined, and never
    where [FileExists] answers false. *)
Theorem FileExists_only_when_Stat_succeeds
    (fault : option error) (path : string) (fs : os.FS) :
  (utils.FileExists fault path fs = true <-> fault = None /\ present path fs)
  /\ (utils.IsDir fault path fs = true <-> fault = None /\ path ∈ os.dirs fs)
  /\ (utils.IsDir fault path fs = true -> utils.FileExists fault path fs = true).
Proof.
  split; [| split].
  - rewrite <- Stat_info. unfold utils.FileExists.
    destruct (os.Stat fault path fs) as [d | |e].
    + split; [by eexists | done].
    + split; [done | by intros [d Hd]].
    + split; [done | by intros [d Hd]].
  - unfold utils.IsDir, os.Stat. destruct fault as [e|].
    + split; [done | by intros [Hf _]].
    + case_bool_decide as Hdir; [done |].
      destruct (os.files fs !! path); (split; [done | by intros [_ Hd]]).
  - unfold utils.IsDir, utils.FileExists.
    by destruct (os.Stat fault path fs) as [[|] | |].
Qed.

Lemma WriteFile_cases (answer : os.WriteAnswer) (name data : string) (perm : Z)
    (fs fs' : os.FS) (err : option error) :
  os.WriteFile answer name data perm fs = (err, fs') ->
  (err = None /\ answer = os.WriteOk
   /\ fs' = {| os.files := <[name := data]> (os.files fs); os.dirs := os.dirs fs |})
  \/ (is_Some err
      /\ (fs' = fs
          \/ exists e written,
               answer = os.WriteFailed e written
               /\ fs' = {| os.files := <[name := sliceTo written data]> (os.files fs);
                           os.dirs := os.dirs fs |})).
Proof.
  unfold os.WriteFile. intros Hw.
  destruct answer as [|e|e written]; try case_bool_decide; simplify_eq/=.
  - right. split; [by eexists | by left].
  - by left.
  - right. split; [by eexists | by left].
  - right. split; [by eexists | by left].
  - right. split; [by eexists | right; by eexists _, _].
Qed.

Lemma set_config_same (st : userData.State) :
  userData.set_config (userData.config st) st = st.
Proof. by destruct st. Qed.

Section UserData.

Variable PathSeparator : string.

Variable Marshal : option userData.configFile -> string + error.

Variable Unmarshal :
  string -> option userData.configFile -> option userData.configFile + error.

(** X11: when [Init] returns, it has recorded the context, it has created
    the configuration directory if [FileExists] did not see it and
    nothing else (no file is created or changed), it has kept a
    [configFilePath] that was set and otherwise set it to [config.json]
    in that directory, and when [FileExists] does not see that file the
    configuration is the one without hosts. *)
Theorem Init_returns
    (ctx : string) (a : userData.InitAnswers) (st st' : userData.State) :
  userData.Init PathSeparator Unmarshal ctx a st = userData.Returns st' ->
  exists configDir,
    userData.userConfigDir a = inl configDir
    /\ let dir := configDir +:+ PathSeparator +:+ userData.AppName in
       os.files (userData.fs st') = os.files (userData.fs st)
       /\ os.dirs (userData.fs st')
          = (if utils.FileExists (userData.statDirFault a) dir (userData.fs st)
             then os.dirs (userData.fs st)
             else {[dir]} ∪ os.dirs (userData.fs st))
       /\ userData.configFilePath st'
          = (if String.eqb (userData.configFilePath st) ""
             then dir +:+ PathSeparator +:+ "config.json"
             else userData.configFilePath st)
       /\ userData.runtimeCtx st' = Some ctx
       /\ userData.emitted st' = userData.emitted st
       /\ userData.saving st' = userData.saving st
       /\ (utils.FileExists (userData.statFileFault a) (userData.configFilePath st')
             (userData.fs st') = false ->
           userData.config st' = Some emptyConfig).
Proof.
  unfold userData.Init, userData.getConfigPath.
  destruct (userData.userConfigDir a) as [configDir | err]; [| done].
  intros Hinit. exists configDir. split; [done |]. cbn zeta.
  set (dir := configDir +:+ PathSeparator +:+ userData.AppName) in *.
  cbn [userData.fs userData.set_runtimeCtx] in Hinit.
  destruct (utils.FileExists (userData.statDirFault a) dir (userData.fs st)) eqn:Hdir;
    cbn [negb] in Hinit.
  - unfold userData.parseConfig in Hinit.
    cbn [userData.configFilePath userData.set_fs userData.set_runtimeCtx] in Hinit.
    destruct (String.eqb (userData.configFilePath st) "") eqn:Hpath;
      cbn [userData.configFilePath userData.set_configFilePath userData.set_fs
             userData.set_runtimeCtx userData.fs userData.config] in Hinit;
      match type of Hinit with
      | context [utils.FileExists ?f ?p ?x] => destruct (utils.FileExists f p x) eqn:Hfile
      end; cbn [negb] in Hinit;
      repeat match type of Hinit with
             | context [match ?x with _ => _ end] => destruct x eqn:?
             end;
      simplify_eq/=; repeat split; try done; intros Hno; congruence.
  - unfold os.Mkdir in Hinit.
    destruct (userData.mkdirFault a) as [e|]; [done |].
    destruct (bool_decide (dir ∈ os.dirs (userData.fs st))
              || bool_decide (is_Some (os.files (userData.fs st) !! dir))); [done |].
    unfold userData.parseConfig in Hinit.
    cbn [userData.configFilePath userData.set_fs userData.set_runtimeCtx] in Hinit.
    destruct (String.eqb (userData.configFilePath st) "") eqn:Hpath;
      cbn [userData.configFilePath userData.set_configFilePath userData.set_fs
             userData.set_runtimeCtx userData.fs userData.config] in Hinit;
      match type of Hinit with
      | context [utils.FileExists ?f ?p ?x] => destruct (utils.FileExists f p x) eqn:Hfile
      end; cbn [negb] in Hinit;
      repeat match type of Hinit with
             | context [match ?x with _ => _ end] => destruct x eqn:?
             end;
      simplify_eq/=; repeat split; try done; intros Hno; congruence.
Qed.

(** X12: when the configuration directory exists and [os.Stat] fails on
    it, [Init] panics: [FileExists] takes the directory for absent, and
    [os.Mkdir] fails on the existing path. *)
Theorem Init_panics_on_unreadable_directory
    (ctx : string) (a : userData.InitAnswers) (st : userData.State)
    (configDir : string) (e : error) :
  userData.userConfigDir a = inl configDir ->
  userData.statDirFault a = Some e ->
  configDir +:+ PathSeparator +:+ userData.AppName ∈ os.dirs (userData.fs st) ->
  exists err, userData.Init PathSeparator Unmarshal ctx a st = userData.Panics err.
Proof.
  intros Hdir Hstat Hexists.
  unfold userData.Init, userData.getConfigPath. rewrite Hdir.
  unfold utils.FileExists, os.Stat. rewrite Hstat. cbn [negb].
  unfold os.Mkdir. cbn [userData.fs userData.set_runtimeCtx].
  destruct (userData.mkdirFault a) as [e'|]; [by eexists |].
  rewrite bool_decide_eq_true_2 by exact Hexists. cbn [orb]. by eexists.
Qed.

(** X13: when [os.Stat] fails on the configuration file, [parseConfig]
    does not panic but takes the file for absent and installs the
    configuration without hosts; the next save that succeeds then
    replaces whatever the file held by the encoding of that. *)
Theorem parseConfig_stat_error_loses_hosts
    (e : error) (readFault : option error) (st : userData.State) (data : string) :
  userData.configFilePath st ∉ os.dirs (userData.fs st) ->
  Marshal (Some emptyConfig) = inl data ->
  exists st1 st2,
    userData.parseConfig Unmarshal (Some e) readFault st = userData.Returns st1
    /\ userData.config st1 = Some emptyConfig
    /\ userData.fs st1 = userData.fs st
    /\ userData.saveConfig_run Marshal os.WriteOk (userData.saveConfig st1) = Some st2
    /\ os.files (userData.fs st2) !! userData.configFilePath st = Some data.
Proof.
  intros Hfile Hm. eexists _, _.
  split; [reflexivity |]. split; [reflexivity |]. split; [reflexivity |].
  unfold userData.saveConfig_run, userData.saveConfig.
  cbn [userData.saving userData.set_saving userData.config userData.set_config
        userData.configFilePath userData.fs userData.runtimeCtx].
  fold emptyConfig. rewrite Hm. unfold os.WriteFile.
  rewrite bool_decide_eq_false_2 by exact Hfile.
  split; [reflexivity |]. cbn. by rewrite lookup_insert_eq.
Qed.

(** X14: saving and loading again gives the configuration back, if
    decoding undoes encoding: the goroutine of [saveConfig] writes the
    encoding to [configFilePath] and announces [hostsChange], and
    [parseConfig] then finds the file, reads that encoding and leaves the
    state as it is. *)
Theorem saveConfig_then_parseConfig
    (st : userData.State) (c : userData.configFile) (data : string) :
  userData.config st = Some c ->
  Marshal (Some c) = inl data ->
  Unmarshal data (Some c) = inl (Some c) ->
  userData.configFilePath st ∉ os.dirs (userData.fs st) ->
  exists st1,
    userData.saveConfig_run Marshal os.WriteOk (userData.saveConfig st) = Some st1
    /\ os.files (userData.fs st1) !! userData.configFilePath st = Some data
    /\ userData.emitted st1
       = userData.emitted st
         ++ [userData.EventsEmit (userData.runtimeCtx st) "hostsChange" []]
    /\ userData.saving st1 = userData.saving st
    /\ userData.parseConfig Unmarshal None None st1 = userData.Returns st1.
Proof.
  intros Hc Hm Hu Hfile. eexists.
  unfold userData.saveConfig_run, userData.saveConfig.
  cbn [userData.saving userData.set_saving userData.config
        userData.configFilePath userData.fs userData.runtimeCtx].
  rewrite Hc, Hm. unfold os.WriteFile.
  rewrite bool_decide_eq_false_2 by exact Hfile.
  split; [reflexivity |]. cbn [userData.fs userData.emitEvent userData.set_fs os.files].
  split; [by rewrite lookup_insert_eq |]. split; [reflexivity |]. split; [reflexivity |].
  unfold userData.parseConfig, utils.FileExists, os.Stat, os.ReadFile.
  cbn [userData.fs userData.emitEvent userData.set_fs os.files os.dirs
        userData.configFilePath userData.config userData.set_saving].
  rewrite bool_decide_eq_false_2 by exact Hfile.
  rewrite lookup_insert_eq. cbn [negb]. rewrite Hc, Hu.
  f_equal. destruct st as [p cfg rc f ev n]. simpl in *. by subst cfg.
Qed.

(** X15: the goroutine of [saveConfig] sends exactly one event, to the
    context [Init] recorded, and changes neither the configuration nor
    the path.  The event is [hostsChange] exactly when [json.Marshal] and
    [os.WriteFile] both return no error, and the file then holds the
    whole encoding of the configuration.  Otherwise it is an [error]
    event with one message, and the file system is what it was, unless
    the writing itself failed: then the file holds the bytes that were
    written before the failure. *)
Theorem saveConfig_run_sends_one_event
    (answer : os.WriteAnswer) (st st' : userData.State) :
  userData.saveConfig_run Marshal answer st = Some st' ->
  userData.config st' = userData.config st
  /\ userData.configFilePath st' = userData.configFilePath st
  /\ S (userData.saving st') = userData.saving st
  /\ exists name data,
       userData.emitted st'
       = userData.emitted st ++ [userData.EventsEmit (userData.runtimeCtx st) name data]
       /\ (name = "hostsChange"
           <-> exists content fs',
                 Marshal (userData.config st) = inl content
                 /\ os.WriteFile answer (userData.configFilePath st) content 493
                      (userData.fs st) = (None, fs'))
       /\ (name = "hostsChange" ->
           data = []
           /\ exists content,
                Marshal (userData.config st) = inl content
                /\ os.files (userData.fs st')
                   = <[userData.configFilePath st := content]> (os.files (userData.fs st))
                /\ os.dirs (userData.fs st') = os.dirs (userData.fs st))
       /\ (name <> "hostsChange" ->
           name = "error" /\ (exists msg, data = [msg])
           /\ (userData.fs st' = userData.fs st
               \/ exists content e written,
                    Marshal (userData.config st) = inl content
                    /\ answer = os.WriteFailed e written
                    /\ os.files (userData.fs st')
                       = <[userData.configFilePath st := sliceTo written content]>
                           (os.files (userData.fs st)))).
Proof.
  unfold userData.saveConfig_run. destruct (userData.saving st) as [|n] eqn:Hn; [done |].
  cbn [userData.config userData.set_saving userData.configFilePath userData.fs
        userData.runtimeCtx].
  intros Hrun. apply (inj Some) in Hrun.
  destruct (Marshal (userData.config st)) as [content | err] eqn:Hm.
  - destruct (os.WriteFile answer (userData.configFilePath st) content 493
                (userData.fs st)) as [[e|] fs1] eqn:Hw;
      subst st'; simpl; (split; [done |]); (split; [done |]); (split; [done |]);
      eexists _, _; (split; [reflexivity |]);
      destruct (WriteFile_cases _ _ _ _ _ _ _ Hw) as [(Herr & Hok & Hfs) | (Herr & Hfs)];
      try done; try (by destruct Herr).
    + split.
      { split; [done |]. intros (c & f & Hc & Hw'). simplify_eq. congruence. }
      split; [done |]. intros _. split; [done |]. split; [by eexists |].
      destruct Hfs as [-> | (e' & written & -> & ->)]; [by left | right].
      by eexists _, _, _.
    + subst fs1. split.
      { split; [| done]. intros _. exists content. eexists. split; [done | exact Hw]. }
      split; [| done]. intros _. split; [done |]. by eexists.
  - subst st'. simpl. repeat split; try done. eexists _, _. split; [reflexivity |].
    split; [split; [done | by intros (c & f & Hc & Hw)] |].
    split; [done |]. intros _. split; [done |]. split; [by eexists | by left].
Qed.

End UserData.

(* ================================================================== *)
(** * Examples: the theorems at concrete inputs *)

#[local] Existing Instance asciiTables.
#[local] Existing Instance htmlSniffTable.

Lemma makeTargetMap_keys_lowercase_witness :
  "a.test" ∈ dom (targetMap (makeTargetMap twoHosts newService))
  <-> exists h, h ∈ Hosts twoHosts /\ "a.test" = strings.ToLower (Name h)
                /\ DefaultTarget h <> "" /\ is_Some (url.Parse (DefaultTarget h)).
Proof.
  apply (makeTargetMap_keys_lowercase twoHosts newService "a.test").
  repeat constructor.
Defined.

(** C1 (as stated) fails: the name [A.test] is registered as it is
    written, so its lowercase form is no key although its target is a
    valid absolute URL, and [b.test] is a key although its target [/up] is
    not an absolute URL. *)
Lemma makeTargetMap_keys_counterexample :
  dom (targetMap (makeTargetMap mixedHosts newService)) = {["A.test"; "b.test"]}
  /\ strings.ToLower "A.test" = "a.test"
  /\ targetMap (makeTargetMap mixedHosts newService) !! "a.test" = None
  /\ url.IsAbs <$> url.Parse "http://127.0.0.1:9001" = Some true
  /\ url.IsAbs <$> url.Parse "/up" = Some false.
Proof. repeat split; vm_compute; reflexivity. Qed.





Lemma StartServer_waits_for_both_binds_witness :
  let w := reached tlsHosts oneKeyPair
             [MvMain; MvMain; MvMain; MvMain; MvMain; MvMain;
              MvHttp None; MvHttp (Some (errorString "listen tcp :80: bind: permission denied"));
              MvHttp None; MvHttp None;
              MvTls None; MvTls None; MvTls None; MvTls None; MvTls None; MvTls None]
             (calling newService) in
  (pastWait (pcMain w) = true ->
   httpResolved (pcHttp w) = true /\ tlsResolved (pcTls w) = true)
  /\ doneCount GoHttp (trace w) = (if httpResolved (pcHttp w) then 1 else 0)
  /\ doneCount GoTls (trace w) = (if tlsResolved (pcTls w) then 1 else 0)
  /\ (httpResolved (pcHttp w) = true -> attempted GoHttp (trace w) = true)
  /\ (tlsResolved (pcTls w) = true ->
      attempted GoTls (trace w) = true \/ pcTls w = T_skipped)
  /\ (served GoHttp (trace w) = true -> httpResolved (pcHttp w) = true)
  /\ (served GoTls (trace w) = true -> tlsResolved (pcTls w) = true)
  /\ (forall a, pcHttp w = H_fail_done \/ pcHttp w = H_ok_done ->
      is_Some (startHttpServer_step tlsHosts a w))
  /\ (forall a, pcTls w = T_skip_done \/ pcTls w = T_fail_done \/ pcTls w = T_ok_done ->
      is_Some (startTlsServer_step tlsHosts oneKeyPair a w))
  /\ (pcMain w = M_wait ->
      httpResolved (pcHttp w) = true -> tlsResolved (pcTls w) = true ->
      StartServer_step tlsHosts w = Some (set_pcMain M_read_http w))
  /\ (exists sched' w', run tlsHosts oneKeyPair sched' (calling newService) = Some w'
        /\ pcMain w' = M_returned true /\ pcHttp w' = H_serving).
Proof.
  apply (StartServer_waits_for_both_binds tlsHosts oneKeyPair newService
           [MvMain; MvMain; MvMain; MvMain; MvMain; MvMain;
            MvHttp None; MvHttp (Some (errorString "listen tcp :80: bind: permission denied"));
            MvHttp None; MvHttp None;
            MvTls None; MvTls None; MvTls None; MvTls None; MvTls None; MvTls None]).
  vm_compute. reflexivity.
Defined.

Lemma ShutdownServer_without_servers_witness :
  exec (ShutdownServer None None) (calling newService)
  = set_detached (detached (calling newService) ++ [removeHostsFileRecord])
      (set_trace (trace (calling newService) ++ [(GoMain, EvGo removeHostsFileRecord)])
         (calling newService))
  /\ forall (answer : option error) (w' : World),
       trace (exec (runTask answer removeHostsFileRecord) w')
       = trace w'
         ++ (GoTask, EvHostsFile removeHostsFileRecord)
            :: match answer with
               | Some err => [(GoTask, EvError (Error err))]
               | None => []
               end.
Proof.
  apply (ShutdownServer_without_servers None None (calling newService));
    reflexivity.
Defined.

(** C8 (as stated) fails: called on a service that never started,
    [ShutdownServer] starts the de-registration of the hosts file, and when
    that cannot open the file the notification channel receives an error. *)
Lemma ShutdownServer_without_servers_counterexample :
  trace <$> task_step 0 (Some (errorString "open /etc/hosts: permission denied"))
              (exec (ShutdownServer None None) (calling newService))
  = Some [(GoMain, EvGo removeHostsFileRecord);
          (GoTask, EvHostsFile removeHostsFileRecord);
          (GoTask, EvError "open /etc/hosts: permission denied")].
Proof. vm_compute. reflexivity. Qed.

Lemma ShutdownServer_twice_witness :
  let w0 := reached twoHosts noKeyPair (startHttpOnly ++ [MvMain]) (calling newService) in
  let w1 := reached twoHosts noKeyPair [MvHttp (Some ErrServerClosed); MvHttp None]
              (exec (ShutdownServer None None) w0) in
  let w2 := exec (ShutdownServer (Some (errorString "close tcp: use of closed connection"))
                    None) w1 in
  httpServerRunning (svc w2) = false
  /\ tlsServerRunning (svc w2) = false
  /\ trace w2
     = trace w1
       ++ match httpServer (svc w1) with
          | Some _ => [(GoMain, EvShutdown HTTP)]
          | None => []
          end
       ++ match tlsServer (svc w1) with
          | Some _ => [(GoMain, EvShutdown TLS)]
          | None => []
          end
       ++ [(GoMain, EvGo removeHostsFileRecord)]
  /\ detached w2 = detached w1 ++ [removeHostsFileRecord].
Proof.
  apply (ShutdownServer_twice twoHosts noKeyPair newService
           (startHttpOnly ++ [MvMain]) [MvHttp (Some ErrServerClosed); MvHttp None]
           (reached twoHosts noKeyPair (startHttpOnly ++ [MvMain]) (calling newService))
           (reached twoHosts noKeyPair [MvHttp (Some ErrServerClosed); MvHttp None]
              (exec (ShutdownServer None None)
                 (reached twoHosts noKeyPair (startHttpOnly ++ [MvMain])
                    (calling newService))))
           None None);
    try (vm_compute; reflexivity).
  split; intros _; reflexivity.
Defined.

(** C7 (as stated) fails: the second of two calls in a row starts the
    de-registration of the hosts file again, and when that fails the
    second call does produce an error report. *)
Lemma ShutdownServer_twice_counterexample :
  let w0 := reached twoHosts noKeyPair (startHttpOnly ++ [MvMain]) (calling newService) in
  let w1 := exec (ShutdownServer None None) w0 in
  let w2 := exec (ShutdownServer None None) w1 in
  detached w1 = [removeHostsFileRecord]
  /\ detached w2 = [removeHostsFileRecord; removeHostsFileRecord]
  /\ trace <$> task_step 1 (Some (errorString "open /etc/hosts: permission denied")) w2
     = Some (trace w1
             ++ [(GoMain, EvShutdown HTTP);
                 (GoMain, EvGo removeHostsFileRecord);
                 (GoTask, EvHostsFile removeHostsFileRecord);
                 (GoTask, EvError "open /etc/hosts: permission denied")]).
Proof. repeat split; vm_compute; reflexivity. Qed.

Lemma ErrorHandler_answers_bad_gateway_witness :
  let err := errorString "dial tcp 127.0.0.1:9001: connect: connection refused" in
  let w := http.newResponse getRoot in
  let w' := ErrorHandler w getRoot err in
  http.status w' = 502%Z
  /\ http.wire w'
     = Some (<["Content-Type" := ["text/html; charset=utf-8"]]> (http.header w))
  /\ http.header w' = http.header w
  /\ (http.reqMethod w <> "HEAD" ->
      http.body w' = http.body w +:+ badGatewayPage (Error err)
      /\ substringOf "<h2>Bad Gateway</h2>" (http.body w')
      /\ substringOf (Error err) (http.body w'))
  /\ (http.reqMethod w = "HEAD" -> http.body w' = http.body w).
Proof.
  apply (ErrorHandler_answers_bad_gateway (http.newResponse getRoot) getRoot
           (errorString "dial tcp 127.0.0.1:9001: connect: connection refused"));
    reflexivity.
Defined.

(** C9 (as stated) fails: when the request is a [HEAD] request, the
    answer has the status 502 and no body; the same failure on a [GET]
    request is answered with the page. *)
Lemma ErrorHandler_answers_bad_gateway_counterexample :
  let err := errorString "dial tcp 127.0.0.1:9001: connect: connection refused" in
  let w' := ErrorHandler (http.newResponse headRoot) headRoot err in
  http.status w' = 502%Z
  /\ http.body w' = ""
  /\ http.body (ErrorHandler (http.newResponse getRoot) getRoot err)
     = badGatewayPage (Error err).
Proof. repeat split; vm_compute; reflexivity. Qed.

Lemma makeTargetMap_last_entry_wins_witness :
  targetMap (makeTargetMap sameName newService) !! "a.test"
  = Some (targetOf "http://127.0.0.1:9002").
Proof.
  apply (makeTargetMap_last_entry_wins sameName newService
           [host "a.test" "http://127.0.0.1:9001"] [host "a.test" ""]
           (host "a.test" "http://127.0.0.1:9002") (targetOf "http://127.0.0.1:9002")).
  - reflexivity.
  - discriminate.
  - vm_compute. reflexivity.
  - intros h' Hh' _ [Hnonempty _]. apply list_elem_of_singleton in Hh'.
    subst h'. by apply Hnonempty.
Defined.

Lemma StartServer_registry_from_config_witness :
  let w := reached twoHosts noKeyPair startHttpOnly (calling newService) in
  targetMap (svc w) = targetMap (makeTargetMap twoHosts newService)
  /\ Director (svc w) getRoot = Director (makeTargetMap twoHosts newService) getRoot
  /\ targetMap (svc (exec (ShutdownServer None None) w)) = targetMap (svc w).
Proof.
  apply (StartServer_registry_from_config twoHosts noKeyPair newService startHttpOnly
           _ None None getRoot);
    vm_compute; reflexivity.
Defined.

Lemma Director_routes_by_lowercase_names_witness :
  exists h, h ∈ Hosts twoHosts
            /\ Name h = strings.ToLower (http.Host getRoot)
            /\ hasCapital (Name h) = false
            /\ registers h.
Proof.
  apply (Director_routes_by_lowercase_names twoHosts newService getRoot
           (targetOf "http://127.0.0.1:9001"));
    vm_compute; reflexivity.
Defined.


Lemma StartServer_http_failure_leaves_tls_witness :
  exists w,
    run tlsHosts oneKeyPair (httpFailsTlsServes bindDenied) (calling newService) = Some w
    /\ pcMain w = M_returned true
    /\ pcHttp w = H_failed
    /\ pcTls w = T_serving
    /\ httpServerRunning (svc w) = false
    /\ tlsServerRunning (svc w) = true
    /\ reportCount GoHttp (trace w) = 1
    /\ reportCount GoTls (trace w) = 0
    /\ detached w = [addHostsFileRecord].
Proof.
  apply (StartServer_http_failure_leaves_tls tlsHosts oneKeyPair newService bindDenied).
  - vm_compute. discriminate.
  - reflexivity.
Defined.

Lemma ShutdownServer_stays_stopped_witness :
  let w0 := reached twoHosts noKeyPair (startHttpOnly ++ [MvMain]) (calling newService) in
  let w1 := reached twoHosts noKeyPair [MvHttp (Some ErrServerClosed); MvHttp None]
              (exec (ShutdownServer None None) w0) in
  GetServerStatus (svc w1) = <["HTTP" := false]> (<["TLS" := false]> ∅)
  /\ isShut (httpServer (svc w1))
  /\ isShut (tlsServer (svc w1)).
Proof.
  apply (ShutdownServer_stays_stopped twoHosts noKeyPair newService
           (startHttpOnly ++ [MvMain]) [MvHttp (Some ErrServerClosed); MvHttp None]
           (reached twoHosts noKeyPair (startHttpOnly ++ [MvMain]) (calling newService))
           _ None None);
    try (vm_compute; reflexivity).
  split; intros _; reflexivity.
Defined.

Lemma ErrorHandler_after_header_sent_witness :
  let err := errorString "dial tcp 127.0.0.1:9001: connect: connection refused" in
  let w' := ErrorHandler pageStarted getRoot err in
  let page := badGatewayPage (Error err) in
  http.status w' = http.status pageStarted
  /\ http.wire w' = Some (<["Content-Type" := ["text/html; charset=utf-8"]]> ∅)
  /\ http.snapshot w' = http.snapshot pageStarted
  /\ http.header w' = http.header pageStarted
  /\ http.body w'
     = if takes pageStarted page && negb (String.eqb (http.reqMethod pageStarted) "HEAD")
       then http.body pageStarted +:+ page
       else http.body pageStarted.
Proof.
  apply (ErrorHandler_after_header_sent pageStarted getRoot
           (errorString "dial tcp 127.0.0.1:9001: connect: connection refused")
           (<["Content-Type" := ["text/html; charset=utf-8"]]> ∅));
    reflexivity.
Defined.

Lemma StartServer_makes_fresh_servers_witness :
  let w := reached tlsHosts oneKeyPair (httpFailsTlsServes bindDenied)
             (calling newService) in
  (httpMade (pcHttp w) = true ->
   exists b, httpServer (svc w)
             = Some (http.withTracking b (newServer (HttpPort (Setting tlsHosts)) None)))
  /\ (httpMade (pcHttp w) = false -> httpServer (svc w) = httpServer newService)
  /\ (tlsMade (pcTls w) = true ->
      tls.Certificates (loadTLSConfig tlsHosts oneKeyPair GoTls w).1 <> []
      /\ exists b, tlsServer (svc w)
                   = Some (http.withTracking b
                             (newServer (HttpsPort (Setting tlsHosts))
                                (Some (loadTLSConfig tlsHosts oneKeyPair GoTls w).1))))
  /\ (tlsMade (pcTls w) = false -> tlsServer (svc w) = tlsServer newService)
  /\ (forall srv, httpMade (pcHttp w) = true -> httpServer (svc w) = Some srv ->
      http.inShutdown srv = false)
  /\ (forall srv, tlsMade (pcTls w) = true -> tlsServer (svc w) = Some srv ->
      http.inShutdown srv = false).
Proof.
  apply (StartServer_makes_fresh_servers tlsHosts oneKeyPair newService
           (httpFailsTlsServes bindDenied)).
  vm_compute. reflexivity.
Defined.

Lemma Init_returns_witness :
  exists configDir,
    userData.userConfigDir noFaults = inl configDir
    /\ let dir := configDir +:+ "/" +:+ userData.AppName in
       os.files (userData.fs initialised) = os.files (userData.fs (atStart freshDisk))
       /\ os.dirs (userData.fs initialised)
          = (if utils.FileExists (userData.statDirFault noFaults) dir
                  (userData.fs (atStart freshDisk))
             then os.dirs (userData.fs (atStart freshDisk))
             else {[dir]} ∪ os.dirs (userData.fs (atStart freshDisk)))
       /\ userData.configFilePath initialised
          = (if String.eqb (userData.configFilePath (atStart freshDisk)) ""
             then dir +:+ "/" +:+ "config.json"
             else userData.configFilePath (atStart freshDisk))
       /\ userData.runtimeCtx initialised = Some "app"
       /\ userData.emitted initialised = userData.emitted (atStart freshDisk)
       /\ userData.saving initialised = userData.saving (atStart freshDisk)
       /\ (utils.FileExists (userData.statFileFault noFaults)
             (userData.configFilePath initialised) (userData.fs initialised) = false ->
           userData.config initialised = Some emptyConfig).
Proof.
  apply (Init_returns "/" decodeEmpty "app" noFaults (atStart freshDisk) initialised).
  vm_compute. reflexivity.
Defined.

Lemma Init_panics_on_unreadable_directory_witness :
  exists err,
    userData.Init "/" decodeEmpty "app" statDenied (atStart usedDisk) = userData.Panics err.
Proof.
  apply (Init_panics_on_unreadable_directory "/" decodeEmpty "app" statDenied
           (atStart usedDisk) "/home/u/.config" (errorString "stat: permission denied")).
  - reflexivity.
  - reflexivity.
  - apply (bool_decide_unpack _). vm_compute. exact I.
Defined.

Lemma parseConfig_stat_error_loses_hosts_witness :
  let st := userData.set_configFilePath "/home/u/.config/Local Proxy/config.json"
              (atStart usedDisk) in
  exists st1 st2,
    userData.parseConfig decodeEmpty (Some (errorString "stat: permission denied")) None st
    = userData.Returns st1
    /\ userData.config st1 = Some emptyConfig
    /\ userData.fs st1 = userData.fs st
    /\ userData.saveConfig_run encodeEmpty os.WriteOk (userData.saveConfig st1) = Some st2
    /\ os.files (userData.fs st2) !! userData.configFilePath st = Some "{}".
Proof.
  apply (parseConfig_stat_error_loses_hosts encodeEmpty decodeEmpty
           (errorString "stat: permission denied") None
           (userData.set_configFilePath "/home/u/.config/Local Proxy/config.json"
              (atStart usedDisk)) "{}").
  - apply (bool_decide_unpack _). vm_compute. exact I.
  - reflexivity.
Defined.

Lemma saveConfig_then_parseConfig_witness :
  exists st1,
    userData.saveConfig_run encodeEmpty os.WriteOk (userData.saveConfig initialised)
    = Some st1
    /\ os.files (userData.fs st1) !! userData.configFilePath initialised = Some "{}"
    /\ userData.emitted st1
       = userData.emitted initialised
         ++ [userData.EventsEmit (userData.runtimeCtx initialised) "hostsChange" []]
    /\ userData.saving st1 = userData.saving initialised
    /\ userData.parseConfig decodeEmpty None None st1 = userData.Returns st1.
Proof.
  apply (saveConfig_then_parseConfig encodeEmpty decodeEmpty initialised emptyConfig "{}").
  - vm_compute. reflexivity.
  - reflexivity.
  - reflexivity.
  - apply (bool_decide_unpack _). vm_compute. exact I.
Defined.

Lemma saveConfig_run_sends_one_event_witness :
  let answer := os.WriteFailed (errorString "write: no space left on device") 1 in
  let st := userData.saveConfig initialised in
  let st' := default st (userData.saveConfig_run encodeEmpty answer st) in
  userData.config st' = userData.config st
  /\ userData.configFilePath st' = userData.configFilePath st
  /\ S (userData.saving st') = userData.saving st
  /\ exists name data,
       userData.emitted st'
       = userData.emitted st ++ [userData.EventsEmit (userData.runtimeCtx st) name data]
       /\ (name = "hostsChange"
           <-> exists content fs',
                 encodeEmpty (userData.config st) = inl content
                 /\ os.WriteFile answer (userData.configFilePath st) content 493
                      (userData.fs st) = (None, fs'))
       /\ (name = "hostsChange" ->
           data = []
           /\ exists content,
                encodeEmpty (userData.config st) = inl content
                /\ os.files (userData.fs st')
                   = <[userData.configFilePath st := content]> (os.files (userData.fs st))
                /\ os.dirs (userData.fs st') = os.dirs (userData.fs st))
       /\ (name <> "hostsChange" ->
           name = "error" /\ (exists msg, data = [msg])
           /\ (userData.fs st' = userData.fs st
               \/ exists content e written,
                    encodeEmpty (userData.config st) = inl content
                    /\ answer = os.WriteFailed e written
                    /\ os.files (userData.fs st')
                       = <[userData.configFilePath st := sliceTo written content]>
                           (os.files (userData.fs st)))).
Proof.
  apply (saveConfig_run_sends_one_event encodeEmpty
           (os.WriteFailed (errorString "write: no space left on device") 1)
           (userData.saveConfig initialised)).
  vm_compute. reflexivity.
Defined.
